(** * RomKit: the device-info source cache, lookup and merge engine

    A shallow embedding of [RomKit/orgposter/device_info_reader.py]
    (class [DeviceInfoReader]) and the properties its specification states.

    Layout of the development:
    - [value]: the JSON-shaped Python values the class handles, with Python's
      truthiness ([py_truthy]), [==] ([py_eq]) and [str()] of hashable values;
    - [result] and [M]: exceptions, and exceptions over the mutable state of
      the program ([world]: [self.sources_cache], the lines printed, and the
      heap of dict objects that are passed around by reference);
    - the collaborators the class calls but does not define ([Collaborators]:
      PyGithub, the file system, [json], [extract_data], the [JSONReader]);
    - the methods, under their own names, in the order of the source;
    - the log formatter of [RomKit/utils/logger.py] ([Logger]);
    - the theorems. *)

From stdpp Require Import gmap strings list fin_maps pretty.
From Stdlib Require Import ZArith Ascii.

#[local] Set Warnings "-register-all".
#[local] Open Scope string_scope.

(** ** Values *)

(** JSON-shaped Python values.  A [dict] has string keys (it comes from
    [json.load]) and is a finite map: Python's [==] on dicts and every use the
    class makes of a record are insensitive to insertion order.  Numbers are
    integers; non-integral numbers are outside this model. *)
Inductive value : Type :=
  | VNone
  | VBool (b : bool)
  | VInt (z : Z)
  | VStr (s : string)
  | VList (l : list value)
  | VDict (d : gmap string value).

(** A record (Python: [Dict[str, Any]]): a device record of the OTA catalog,
    an item of a source, a source descriptor. *)
Abbreviation record := (gmap string value).

(** [bool(v)]: what [if v:] and [not v] test. *)
Definition py_truthy (v : value) : bool :=
  match v with
  | VNone => false
  | VBool b => b
  | VInt z => negb (z =? 0)%Z
  | VStr s => negb (bool_decide (s = ""))
  | VList l => negb (bool_decide (length l = 0%nat))
  | VDict d => negb (bool_decide (size d = 0%nat))
  end.

(** [a == b].  [bool] is a subclass of [int] ([True == 1]); values of
    different kinds are otherwise unequal; lists compare element-wise and
    dicts key-wise. *)
Fixpoint py_eq (a b : value) {struct a} : bool :=
  match a, b with
  | VNone, VNone => true
  | VBool x, VBool y => bool_decide (x = y)
  | VBool x, VInt z => (Z.b2z x =? z)%Z
  | VInt z, VBool y => (z =? Z.b2z y)%Z
  | VInt x, VInt y => (x =? y)%Z
  | VStr s, VStr t => bool_decide (s = t)
  | VList l1, VList l2 =>
      (fix go (l1 l2 : list value) {struct l1} : bool :=
         match l1, l2 with
         | [], [] => true
         | x :: xs, y :: ys => py_eq x y && go xs ys
         | _, _ => false
         end) l1 l2
  | VDict d1, VDict d2 =>
      bool_decide (dom d1 = dom d2) &&
      map_fold (fun k v acc =>
                  acc && match d2 !! k with
                         | Some v' => py_eq v v'
                         | None => false
                         end) true d1
  | _, _ => false
  end.

(** [isinstance(v, list)]. *)
Definition is_list (v : value) : bool :=
  match v with VList _ => true | _ => false end.

(** Hashable values: what can be a key of a Python dict.  Lists and dicts
    are unhashable. *)
Inductive hkey : Type :=
  | KNone
  | KBool (b : bool)
  | KInt (z : Z)
  | KStr (s : string).

Definition to_hkey (v : value) : option hkey :=
  match v with
  | VNone => Some KNone
  | VBool b => Some (KBool b)
  | VInt z => Some (KInt z)
  | VStr s => Some (KStr s)
  | VList _ | VDict _ => None
  end.

Definition of_hkey (k : hkey) : value :=
  match k with
  | KNone => VNone
  | KBool b => VBool b
  | KInt z => VInt z
  | KStr s => VStr s
  end.

(** Two keys address the same slot of a dict when they are [==]. *)
Definition hkey_eqb (a b : hkey) : bool := py_eq (of_hkey a) (of_hkey b).

(** [str(k)], what an f-string interpolates for [{k}]. *)
Definition py_str (k : hkey) : string :=
  match k with
  | KNone => "None"
  | KBool true => "True"
  | KBool false => "False"
  | KInt z => pretty z
  | KStr s => s
  end.

(** ** Exceptions *)

(** Instances of [Exception], which is what [except Exception] catches.
    [KeyError k] is raised by [d[k]] on a missing key, [TypeError] by hashing a
    list or a dict; [Raised] is any other exception a collaborator raises
    (network, file system, JSON syntax, projection). *)
Inductive exn : Type :=
  | KeyError (key : string)
  | TypeError (msg : string)
  | Raised (cls msg : string).

Inductive result (A : Type) : Type :=
  | Ok (a : A)
  | Raise (e : exn).
Arguments Ok {A} a.
Arguments Raise {A} e.

(** [d.get(k)] with a string literal [k]: [None] when the key is absent. *)
Definition dict_get (d : record) (k : string) : value :=
  default VNone (d !! k).

(** [d[k]] with a string literal [k]. *)
Definition dict_getitem (d : record) (k : string) : result value :=
  match d !! k with
  | Some v => Ok v
  | None => Raise (KeyError k)
  end.

(** [d.get(k)] with a computed key [k]: hashing [k] comes first, and a key
    that is not a string equals no key of a record. *)
Definition py_get (d : record) (k : value) : result value :=
  match k with
  | VStr s => Ok (dict_get d s)
  | VList _ | VDict _ => Raise (TypeError "unhashable type")
  | VNone | VBool _ | VInt _ => Ok VNone
  end.

(** ** The state of the program *)

(** One entry of [self.sources_cache]: [{"data": ..., "config": source}]. *)
Record source_entry : Type := SourceEntry {
  data : value;
  config : record;
}.

(** [self.sources_cache]: a Python dict, so insertion-ordered; the order is
    the order in which [_merge_sources_into_device] visits the sources. *)
Abbreviation cache := (list (hkey * source_entry)).

(** [name in c] / [c[name]]. *)
Fixpoint cache_get (c : cache) (name : hkey) : option source_entry :=
  match c with
  | [] => None
  | (k, e) :: rest => if hkey_eqb k name then Some e else cache_get rest name
  end.

(** [c[name] = e]: an existing key keeps its place (and the key object first
    inserted), a new key goes last. *)
Fixpoint cache_set (c : cache) (name : hkey) (e : source_entry) : cache :=
  match c with
  | [] => [(name, e)]
  | (k, e') :: rest =>
      if hkey_eqb k name then (k, e) :: rest
      else (k, e') :: cache_set rest name e
  end.

(** The lines the class prints, by what they say. *)
Inductive log_line : Type :=
  | WarnMissingName
      (* "Warning: Source missing 'name' field, skipping" *)
  | WarnUnknownType (type_ source_name : value)
      (* "Warning: Unknown source type '{type}' for {source_name}" *)
  | Loaded (n : nat) (source_name : value)
      (* "Loaded {n} items from source '{source_name}'" *)
  | ErrorLoading (source_name : value) (e : exn).
      (* "Error loading source '{source_name}': {e}" *)

(** References to dict objects.  The records the catalog reader hands out and
    the records the merge returns are objects with an identity: the heap maps
    each to its current content.  These are the objects the class can write
    to: its only in-place operations are [self.sources_cache[name] = ...]
    and [current_data.update(...)].  Everything reached from the cache is
    only read ([.get], [.items()], iteration), so the cache holds its data
    by value. *)
Abbreviation loc := positive.

Record world : Type := World {
  sources_cache : cache;
  stdout : list log_line;
  heap : gmap loc record;
}.

(** ** Exceptions and state *)

Class Monad (m : Type -> Type) : Type := {
  ret : forall {A}, A -> m A;
  bind : forall {A B}, m A -> (A -> m B) -> m B;
}.

Notation "x <- c1 ;; c2" := (bind c1 (fun x => c2))
  (at level 100, c1 at next level, right associativity).
Notation "c1 ;; c2" := (bind c1 (fun _ => c2))
  (at level 100, right associativity).

#[export] Instance result_monad : Monad result := {|
  ret := fun A a => Ok a;
  bind := fun A B r k => match r with Ok a => k a | Raise e => Raise e end;
|}.

(** A computation over the state: it ends with a value or with an exception,
    and what it did to the state before raising stays done. *)
Definition M (A : Type) : Type := world -> result A * world.

#[export] Instance M_monad : Monad M := {|
  ret := fun A a w => (Ok a, w);
  bind := fun A B c k w =>
    match c w with
    | (Ok a, w') => k a w'
    | (Raise e, w') => (Raise e, w')
    end;
|}.

Definition lift {A} (r : result A) : M A := fun w => (r, w).

(** [try: body / except Exception as e: handler(e)]. *)
Definition try_except {A} (body : M A) (handler : exn -> M A) : M A :=
  fun w =>
    match body w with
    | (Raise e, w') => handler e w'
    | done => done
    end.

(** [for x in l: body(x)]. *)
Fixpoint for_each {A} (body : A -> M unit) (l : list A) : M unit :=
  match l with
  | [] => ret tt
  | x :: rest => body x ;; for_each body rest
  end.

Definition print (line : log_line) : M unit :=
  fun w => (Ok tt, World (sources_cache w) (stdout w ++ [line]) (heap w)).

Definition get_sources_cache : M cache :=
  fun w => (Ok (sources_cache w), w).

Definition set_sources_cache (c : cache) : M unit :=
  fun w => (Ok tt, World c (stdout w) (heap w)).

(** Reading the dict object behind a reference.  A reference to no object
    cannot arise in Python; the model answers it with an exception of its
    own. *)
Definition deref (l : loc) : M record :=
  fun w =>
    match heap w !! l with
    | Some d => (Ok d, w)
    | None => (Raise (Raised "ReferenceError" "no such object"), w)
    end.

(** A new dict object with content [d]. *)
Definition alloc (d : record) : M loc :=
  fun w =>
    let l := fresh (dom (heap w)) in
    (Ok l, World (sources_cache w) (stdout w) (<[l := d]> (heap w))).

(** In-place change of the dict object behind [l]. *)
Definition mutate (l : loc) (f : record -> record) : M unit :=
  fun w =>
    match heap w !! l with
    | Some d => (Ok tt, World (sources_cache w) (stdout w) (<[l := f d]> (heap w)))
    | None => (Raise (Raised "ReferenceError" "no such object"), w)
    end.

(** ** Collaborators *)

(** What the class calls and does not define.  Each call either returns or
    raises; none of them touches the state above. *)
Class Collaborators : Type := {
  (* PyGithub *)
  Client : Type;
  Repo : Type;
  Github : option string -> Client;
      (* [Github(token)], [Github()] *)
  get_repo : Client -> value -> result Repo;
      (* [github.get_repo(full_name)] *)
  get_contents : Repo -> value -> result string;
      (* [repo.get_contents(path).decoded_content.decode()] *)
  (* json, files *)
  json_loads : string -> result value;
  read_text : value -> result string;
      (* [open(Path(p)).read()] *)
  (* RomKit.utils *)
  extract_data : value -> value -> result value;
  (* JSONReader *)
  json_reader_get_device_info : string -> string -> result (option loc);
  json_reader_get_all_devices : result (list loc);
  json_reader_get_all_json_files : result (list record);
}.

(** The attributes of a [DeviceInfoReader] that are set once;
    [self.sources_cache] is in the [world]. *)
Record DeviceInfoReader : Type := {
  device_info_sources : list record;
  gh_token : option string;
}.

Section Methods.
Context `{Collaborators}.

(** ** Loading the sources *)

Definition _load_github_source (self : DeviceInfoReader) (source : record)
  : result value :=
  let github :=
    match gh_token self with
    | Some t => if bool_decide (t = "") then Github None else Github (Some t)
    | None => Github None
    end in
  full_name <- dict_getitem source "repo" ;;
  repo <- get_repo github full_name ;;
  path <- dict_getitem source "file" ;;
  content <- get_contents repo path ;;
  json_loads content.

Definition _load_local_source (source : record) : result value :=
  file_path <- dict_getitem source "file" ;;
  content <- read_text file_path ;;
  json_loads content.

(** [[extract_data(item, schema) for item in items]], left to right. *)
Fixpoint extract_each (items : list value) (schema : value)
  : result (list value) :=
  match items with
  | [] => Ok []
  | item :: rest =>
      extracted_item <- extract_data item schema ;;
      extracted_rest <- extract_each rest schema ;;
      Ok (extracted_item :: extracted_rest)
  end.

(** Lines 99-100: a projection that is not a list becomes one. *)
Definition normalize (extracted_data : value) : value :=
  if is_list extracted_data then extracted_data
  else if py_truthy extracted_data then VList [extracted_data]
  else VList [].

(** [len(v)] of a list. *)
Definition py_len (v : value) : nat :=
  match v with VList l => length l | _ => 0%nat end.

(** Lines 87-97: the projection of the payload, item by item when both the
    payload and [structure] are lists and [structure] is not empty. *)
Definition project (data_ structure : value) : result value :=
  match data_, structure with
  | VList items, VList (schema :: _) =>
      extracted_data <- extract_each items schema ;;
      Ok (VList extracted_data)
  | _, _ => extract_data data_ structure
  end.

(** Lines 85-106: the rest of the [try] block once [data] is fetched. *)
Definition project_and_cache (source : record) (source_name data_ : value)
  : M unit :=
  structure <- lift (dict_getitem source "structure") ;;
  extracted_data <- lift (project data_ structure) ;;
  let extracted_data := normalize extracted_data in
  match to_hkey source_name with
  | None => lift (Raise (TypeError "unhashable type"))
  | Some k =>
      c <- get_sources_cache ;;
      set_sources_cache (cache_set c k (SourceEntry extracted_data source)) ;;
      print (Loaded (py_len extracted_data) source_name)
  end.

(** Lines 75-106: the [try] block.  [source["type"]] is read once here; the
    source reads it again at [elif] and in the warning, with the same
    result. *)
Definition load_source_try (self : DeviceInfoReader) (source : record)
    (source_name : value) : M unit :=
  type_ <- lift (dict_getitem source "type") ;;
  if py_eq type_ (VStr "github") then
    data_ <- lift (_load_github_source self source) ;;
    project_and_cache source source_name data_
  else if py_eq type_ (VStr "local") then
    data_ <- lift (_load_local_source source) ;;
    project_and_cache source source_name data_
  else print (WarnUnknownType type_ source_name).

(** Lines 69-109: one turn of the loop. *)
Definition load_source (self : DeviceInfoReader) (source : record) : M unit :=
  let source_name := dict_get source "name" in
  if negb (py_truthy source_name) then print WarnMissingName
  else
    try_except (load_source_try self source source_name)
               (fun e => print (ErrorLoading source_name e)).

Definition _load_all_sources (self : DeviceInfoReader) : M unit :=
  for_each (load_source self) (device_info_sources self).

(** The constructor. *)
Definition __init__ (sources : option (list record)) (token : option string)
  : M DeviceInfoReader :=
  let self :=
    {| device_info_sources := default [] sources; gh_token := token |} in
  set_sources_cache [] ;;
  (if bool_decide (device_info_sources self = []) then ret tt
   else _load_all_sources self) ;;
  ret self.

(** ** Lookup *)

(** Lines 164-166: the scan of a list of items. *)
Fixpoint scan_items (items : list value) (lookup_field lookup_value : value)
  : result (option record) :=
  match items with
  | [] => Ok None
  | VDict item :: rest =>
      v <- py_get item lookup_field ;;
      if py_eq v lookup_value then Ok (Some item)
      else scan_items rest lookup_field lookup_value
  | _ :: rest => scan_items rest lookup_field lookup_value
  end.

(** [c] is [self.sources_cache]. *)
Definition _lookup_in_source (c : cache) (source_name : hkey)
    (lookup_field lookup_value : value) : result (option record) :=
  match cache_get c source_name with
  | None => Ok None
  | Some cached_source =>
      match data cached_source with
      | VList items => scan_items items lookup_field lookup_value
      | VDict d =>
          v <- py_get d lookup_field ;;
          if py_eq v lookup_value then Ok (Some d) else Ok None
      | _ => Ok None
      end
  end.

(** ** Merge *)

(** The key [f"{source_name}_{k}"]. *)
Definition prefixed_key (source_name : hkey) (k : string) : string :=
  py_str source_name +:+ "_" +:+ k.

(** [{f"{source_name}_{k}": v for k, v in match.items()}]. *)
Definition prefixed_match (source_name : hkey) (match_ : record) : record :=
  kmap (prefixed_key source_name) match_.

(** [d.update(other)]: the fields of [other] win. *)
Definition dict_update (other d : record) : record := other ∪ d.

(** Lines 186-199 of the loop body, on the contents of [ota_data] and
    [current_data]: the record to merge, that is the [match] for which the
    body of [if match:] runs. *)
Definition find_match (c : cache) (ota_data current_data : record)
    (source_name : hkey) (cached_source : source_entry)
  : result (option record) :=
  let config := config cached_source in
  let lookup_field := dict_get config "lookup_field" in
  if negb (py_truthy lookup_field) then Ok None
  else
    lookup_value <-
      (if py_truthy (dict_get config "match_from") then
         match_from <- dict_getitem config "match_from" ;;
         py_get current_data match_from
       else py_get ota_data lookup_field) ;;
    if py_truthy lookup_value then
      match_ <- _lookup_in_source c source_name lookup_field lookup_value ;;
      match match_ with
      | Some m => if py_truthy (VDict m) then Ok (Some m) else Ok None
      | None => Ok None
      end
    else Ok None.

(** Lines 186-201: one turn of the loop, on the objects [ota_data] and
    [current_data]. *)
Definition merge_source (ota_data current_data : loc)
    (source : hkey * source_entry) : M unit :=
  let '(source_name, cached_source) := source in
  ota <- deref ota_data ;;
  cur <- deref current_data ;;
  c <- get_sources_cache ;;
  match_ <- lift (find_match c ota cur source_name cached_source) ;;
  match match_ with
  | Some m =>
      mutate current_data (dict_update (prefixed_match source_name m))
  | None => ret tt
  end.

Definition _merge_sources_into_device (self : DeviceInfoReader)
    (ota_data : loc) : M loc :=
  ota <- deref ota_data ;;
  current_data <- alloc ota ;;
  c <- get_sources_cache ;;
  for_each (merge_source ota_data current_data) c ;;
  ret current_data.

(** ** The query facade *)

Definition get_device_info (self : DeviceInfoReader)
    (id_field id_value : string) : M (option loc) :=
  ota_data <- lift (json_reader_get_device_info id_field id_value) ;;
  match ota_data with
  | None => ret None
  | Some l =>
      ota <- deref l ;;
      if negb (py_truthy (VDict ota)) then ret None
      else if bool_decide (device_info_sources self = []) then ret (Some l)
      else
        merged <- _merge_sources_into_device self l ;;
        ret (Some merged)
  end.

(** [[self._merge_sources_into_device(d) for d in ota_devices]]. *)
Fixpoint merge_each (self : DeviceInfoReader) (ota_devices : list loc)
  : M (list loc) :=
  match ota_devices with
  | [] => ret []
  | ota_device :: rest =>
      merged_device <- _merge_sources_into_device self ota_device ;;
      all_devices <- merge_each self rest ;;
      ret (merged_device :: all_devices)
  end.

Definition get_all_devices (self : DeviceInfoReader) : M (list loc) :=
  ota_devices <- lift json_reader_get_all_devices ;;
  if bool_decide (device_info_sources self = []) then ret ota_devices
  else merge_each self ota_devices.

Definition get_all_json_files (self : DeviceInfoReader) : M (list record) :=
  lift json_reader_get_all_json_files.

End Methods.

(** ** The log formatter ([RomKit/utils/logger.py]) *)

Module Logger.

(** [c.lower()] of an ASCII character.  A string is its UTF-8 bytes; the
    bytes of other characters are left as they are, and no character outside
    ASCII has a letter of ["true"] in its lower case, so the comparison
    below reads as in Python. *)
Definition lower_ascii (c : ascii) : ascii :=
  let n := nat_of_ascii c in
  if (65 <=? n)%nat && (n <=? 90)%nat then ascii_of_nat (n + 32) else c.

(** [s.lower()]. *)
Fixpoint lower (s : string) : string :=
  match s with
  | EmptyString => EmptyString
  | String c rest => String (lower_ascii c) (lower rest)
  end.

(** Line 24: [os.getenv("ROMKIT_FULL_MODULE_PATH", "false").lower() ==
    "true"], from the value of the variable in the environment, if set. *)
Definition FULL_MODULE_PATH (env : option string) : bool :=
  bool_decide (lower (default "false" env) = "true").

(** [s.split(".")]. *)
Fixpoint split (s : string) : list string :=
  match s with
  | EmptyString => [EmptyString]
  | String c rest =>
      if bool_decide (c = "."%char) then EmptyString :: split rest
      else match split rest with
           | part :: parts => String c part :: parts
           | [] => [String c EmptyString]
           end
  end.

(** [".".join(parts)]. *)
Fixpoint join (parts : list string) : string :=
  match parts with
  | [] => EmptyString
  | [part] => part
  | part :: rest => part +:+ "." +:+ join rest
  end.

(** Lines 31-38: the [module_name] that [format] gives a record of the
    logger [name]. *)
Definition module_name (full_module_path : bool) (name : string) : string :=
  match split name with
  | first :: second :: rest =>
      if bool_decide (first = "RomKit") then
        if full_module_path then join (second :: rest) else second
      else name
  | _ => name
  end.

(** The attributes of a [LogRecord] the formatter reads and sets. *)
Record LogRecord : Type := {
  record_name : string;
  record_levelname : string;
  record_message : string;
  record_module_name : option string;
}.

Section Format.
(** [logging.Formatter.format], with the format string of line 45. *)
Variable super_format : LogRecord -> string.

(** [RomKitFormatter.format]: the record with its [module_name] set, and
    the line. *)
Definition format (full_module_path : bool) (record : LogRecord)
  : LogRecord * string :=
  let record :=
    {| record_name := record_name record;
       record_levelname := record_levelname record;
       record_message := record_message record;
       record_module_name :=
         Some (module_name full_module_path (record_name record)) |} in
  (record, super_format record).

End Format.

End Logger.

(** ** Vocabulary of the statements *)

Section Vocabulary.
Context `{Collaborators}.

(** The [try] block either raises and leaves the state as it was, or warns
    about the type, or stores one entry. *)
Inductive try_outcome (source : record) (source_name : value) (w : world)
  : result unit * world -> Prop :=
  | try_raised e :
      try_outcome source source_name w (Raise e, w)
  | try_unknown_type type_ :
      source !! "type" = Some type_ ->
      type_ <> VStr "github" -> type_ <> VStr "local" ->
      try_outcome source source_name w
        (Ok tt, World (sources_cache w)
                      (stdout w ++ [WarnUnknownType type_ source_name])
                      (heap w))
  | try_cached k data_ structure x :
      to_hkey source_name = Some k ->
      source !! "structure" = Some structure ->
      project data_ structure = Ok x ->
      try_outcome source source_name w
        (Ok tt,
         World (cache_set (sources_cache w) k (SourceEntry (normalize x) source))
               (stdout w ++ [Loaded (py_len (normalize x)) source_name])
               (heap w)).

End Vocabulary.

(** The kinds of values [==] keeps apart; [bool] is a kind of number. *)
Inductive kind : Type :=
  | NoneKind | NumberKind | StringKind | ListKind | DictKind.

Definition kind_of (v : value) : kind :=
  match v with
  | VNone => NoneKind
  | VBool _ | VInt _ => NumberKind
  | VStr _ => StringKind
  | VList _ => ListKind
  | VDict _ => DictKind
  end.

(** [item] is a record whose [lookup_field] is [==] to [lookup_value]. *)
Definition item_matches (lookup_field : string) (lookup_value item : value)
  : bool :=
  match item with
  | VDict d => py_eq (dict_get d lookup_field) lookup_value
  | _ => false
  end.

(** The match value as the spec words it: the field named by [match_from]
    of the accumulating record when [match_from] is set, the field named by
    [lookup_field] of the original primary record otherwise. *)
Definition resolve_match_value (config ota_data current_data : record)
  : result value :=
  if py_truthy (dict_get config "match_from")
  then py_get current_data (dict_get config "match_from")
  else py_get ota_data (dict_get config "lookup_field").

(** The content of [current_data] after the turn of a source that found
    [match_]. *)
Definition overlay (source_name : hkey) (match_ : option record)
    (current_data : record) : record :=
  match match_ with
  | Some m => dict_update (prefixed_match source_name m) current_data
  | None => current_data
  end.

(** The content of [current_data] after the turns of [sources], from the
    contents of [ota_data] and [current_data] before them. *)
Fixpoint merged_record (c : cache) (ota_data current_data : record)
    (sources : cache) : result record :=
  match sources with
  | [] => Ok current_data
  | (source_name, cached_source) :: rest =>
      match_ <- find_match c ota_data current_data source_name cached_source ;;
      merged_record c ota_data (overlay source_name match_ current_data) rest
  end.

(** The turn of [source] finds no match for a primary record that is still
    as the catalog gave it. *)
Definition finds_nothing (c : cache) (ota_data : record)
    (source : hkey * source_entry) : bool :=
  match find_match c ota_data ota_data source.1 source.2 with
  | Ok None => true
  | _ => false
  end.

(** No two entries of the cache have names that are [==]. *)
Definition distinct_names (c : cache) : Prop :=
  forall i j ki kj ei ej,
    c !! i = Some (ki, ei) -> c !! j = Some (kj, ej) ->
    hkey_eqb ki kj = true -> i = j.

(** [s] has no ["."] in it. *)
Fixpoint dot_free (s : string) : bool :=
  match s with
  | EmptyString => true
  | String c rest => negb (bool_decide (c = "."%char)) && dot_free rest
  end.

(** What a call of the facade gave: the content of the record it returned,
    nothing, or the exception. *)
Definition outcome (out : result (option loc) * world)
  : result (option (option record)) :=
  match out.1 with
  | Ok (Some l) => Ok (Some (heap out.2 !! l))
  | Ok None => Ok None
  | Raise e => Raise e
  end.

(** ** A concrete setting

    Stand-ins for the collaborators, and a few configurations, on which the
    statements below are run. *)
Module Demo.

Definition rec_ (fields : list (string * value)) : record :=
  list_to_map fields.

(** The parsed content of the files, by file name. *)
Definition parsed (file : string) : result value :=
  if bool_decide (file = "specs.json") then
    Ok (VList [VDict (rec_ [("model", VStr "X1"); ("ram", VStr "8GB")])])
  else if bool_decide (file = "dups.json") then
    Ok (VList [VStr "note";
               VDict (rec_ [("model", VStr "X0"); ("ram", VStr "4GB")]);
               VDict (rec_ [("model", VStr "X1"); ("ram", VStr "8GB")]);
               VDict (rec_ [("model", VStr "X1"); ("ram", VStr "16GB")])])
  else if bool_decide (file = "vendors.json") then
    Ok (VList [VDict (rec_ [("ram", VStr "8GB"); ("vendor", VStr "V")])])
  else if bool_decide (file = "clash.json") then
    Ok (VList [VDict (rec_ [("b", VInt 2); ("a_b", VInt 1)])])
  else if bool_decide (file = "other.json") then
    Ok (VList [VDict (rec_ [("model", VStr "Z9"); ("ram", VStr "2GB")])])
  else if bool_decide (file = "single.json") then
    Ok (VDict (rec_ [("model", VStr "X1")]))
  else if bool_decide (file = "null.json") then Ok VNone
  else Raise (Raised "JSONDecodeError" file).

#[local] Instance collaborators : Collaborators := {|
  Client := option string;
  Repo := string;
  Github := fun token => token;
  get_repo := fun _ full_name =>
    match full_name with
    | VStr s => Ok s
    | _ => Raise (Raised "AssertionError" "full_name")
    end;
  get_contents := fun _ path =>
    match path with
    | VStr s => Ok s
    | _ => Raise (Raised "AssertionError" "path")
    end;
  json_loads := parsed;
  read_text := fun path =>
    match path with
    | VStr s =>
        if bool_decide (s = "missing.json")
        then Raise (Raised "FileNotFoundError" s) else Ok s
    | _ => Raise (TypeError "expected str, bytes or os.PathLike object")
    end;
  extract_data := fun raw structure =>
    match structure with
    | VNone => Raise (Raised "ValueError" "structure")
    | _ => Ok raw
    end;
  json_reader_get_device_info := fun id_field id_value =>
    if bool_decide (id_field = "id") then
      if bool_decide (id_value = "d1") then Ok (Some 1%positive)
      else if bool_decide (id_value = "d0") then Ok (Some 2%positive)
      else if bool_decide (id_value = "d3") then Ok (Some 3%positive)
      else Ok None
    else Ok None;
  json_reader_get_all_devices := Ok [1%positive; 3%positive];
  json_reader_get_all_json_files := Ok [];
|}.

(** The records of the catalog reader. *)
Definition d1 : record := rec_ [("id", VStr "d1"); ("model", VStr "X1")].
Definition d3 : record := rec_ [("id", VStr "d3"); ("b", VInt 2)].

Definition w0 : world :=
  World [] [] (list_to_map [(1%positive, d1); (2%positive, ∅); (3%positive, d3)]).

(** Source descriptors. *)
Definition local_source (name file lookup_field : string) : record :=
  rec_ [("name", VStr name); ("type", VStr "local"); ("file", VStr file);
        ("structure", VList [VDict ∅]); ("lookup_field", VStr lookup_field)].

Definition specs : record := local_source "specs" "specs.json" "model".
Definition dups : record := local_source "specs" "dups.json" "model".
Definition clash : record := local_source "a" "clash.json" "b".
Definition missing : record := local_source "gone" "missing.json" "model".
Definition vendors : record :=
  <["match_from" := VStr "specs_ram"]> (local_source "vendors" "vendors.json" "ram").
Definition unnamed : record := delete "name" specs.
Definition untyped : record := delete "type" specs.
Definition other : record := local_source "other" "other.json" "model".
Definition plain : record :=
  delete "lookup_field" (local_source "plain" "specs.json" "model").
Definition single : record :=
  <["file" := VStr "single.json"]> (<["structure" := VInt 1]> specs).
Definition remote : record :=
  rec_ [("name", VStr "specs"); ("type", VStr "remote");
        ("repo", VStr "PrajjuS/devices"); ("file", VStr "specs.json");
        ("structure", VList [VDict ∅]); ("lookup_field", VStr "model")].
Definition github : record := <["type" := VStr "github"]> remote.

(** The states the constructor leaves for some configurations. *)
Definition loaded (sources : list record) : world :=
  (__init__ (Some sources) None w0).2.

(** [d1] after the turn of [specs], and after the turn of [vendors]. *)
Definition d1_specs : record :=
  rec_ [("id", VStr "d1"); ("model", VStr "X1");
        ("specs_model", VStr "X1"); ("specs_ram", VStr "8GB")].
Definition d1_specs_vendors : record :=
  rec_ [("id", VStr "d1"); ("model", VStr "X1");
        ("specs_model", VStr "X1"); ("specs_ram", VStr "8GB");
        ("vendors_ram", VStr "8GB"); ("vendors_vendor", VStr "V")].

Definition vendors_entry : source_entry :=
  SourceEntry (VList [VDict (rec_ [("ram", VStr "8GB"); ("vendor", VStr "V")])])
              vendors.


(** The same stand-ins with a catalog reader that cannot read its files. *)
Definition unreadable : exn := Raised "FileNotFoundError" "ota".

Definition offline : Collaborators := {|
  Client := option string;
  Repo := string;
  Github := fun token => token;
  get_repo := get_repo (Collaborators := collaborators);
  get_contents := get_contents (Collaborators := collaborators);
  json_loads := parsed;
  read_text := read_text (Collaborators := collaborators);
  extract_data := extract_data (Collaborators := collaborators);
  json_reader_get_device_info := fun _ _ => Raise unreadable;
  json_reader_get_all_devices := Raise unreadable;
  json_reader_get_all_json_files := Raise unreadable;
|}.

End Demo.

(** * Properties *)

(** Runs the primitive steps of a computation that stand at its head. *)
Ltac run :=
  repeat (progress (unfold print, get_sources_cache, set_sources_cache, lift;
                    simpl)).

(** ** Values and the cache *)

Lemma py_eq_str (v : value) (s : string) :
  py_eq v (VStr s) = true <-> v = VStr s.
Proof.
  destruct v; simpl; try (split; [discriminate | discriminate]).
  rewrite bool_decide_eq_true. split; congruence.
Qed.

Lemma py_eq_str_false (v : value) (s : string) :
  v <> VStr s -> py_eq v (VStr s) = false.
Proof.
  intros Hne. destruct (py_eq v (VStr s)) eqn:E; [|done].
  by apply py_eq_str in E.
Qed.

Lemma py_eq_kind (a b : value) : py_eq a b = true -> kind_of a = kind_of b.
Proof. destruct a, b; simpl; intros; done. Qed.

Lemma hkey_eqb_refl (k : hkey) : hkey_eqb k k = true.
Proof.
  unfold hkey_eqb. destruct k; simpl; auto using Z.eqb_refl;
    by apply bool_decide_eq_true.
Qed.

Lemma cache_set_elem (c : cache) (name k : hkey) (e e' : source_entry) :
  (k, e') ∈ cache_set c name e ->
  (k, e') ∈ c \/ (e' = e /\ hkey_eqb k name = true).
Proof.
  induction c as [|[k0 e0] c IH]; simpl.
  - intros Hin%list_elem_of_singleton. injection Hin as -> ->.
    right. split; [done | apply hkey_eqb_refl].
  - destruct (hkey_eqb k0 name) eqn:Hk.
    + intros [Hin|Hin]%elem_of_cons.
      * injection Hin as -> ->. by right.
      * left. by apply elem_of_cons; right.
    + intros [Hin|Hin]%elem_of_cons.
      * left. rewrite Hin. by apply elem_of_cons; left.
      * destruct (IH Hin) as [?|?]; [left|by right].
        by apply elem_of_cons; right.
Qed.

(** ** Loading: what one turn of the loop does *)

Section Loading.
Context `{Collaborators}.

Lemma project_and_cache_outcome source source_name data_ w :
  try_outcome source source_name w
    (project_and_cache source source_name data_ w).
Proof.
  unfold project_and_cache, dict_getitem. simpl.
  destruct (source !! "structure") as [structure|] eqn:Hs; simpl;
    [|apply try_raised].
  destruct (project data_ structure) as [x|e] eqn:Hp; simpl;
    [|apply try_raised].
  destruct (to_hkey source_name) as [k|] eqn:Hk; simpl; [|apply try_raised].
  run. by eapply try_cached.
Qed.

Lemma load_source_try_outcome self source source_name w :
  try_outcome source source_name w (load_source_try self source source_name w).
Proof.
  unfold load_source_try, dict_getitem. simpl.
  destruct (source !! "type") as [type_|] eqn:Ht; simpl; [|apply try_raised].
  destruct (py_eq type_ (VStr "github")) eqn:Hg.
  { simpl. destruct (_load_github_source self source); simpl;
      [apply project_and_cache_outcome | apply try_raised]. }
  destruct (py_eq type_ (VStr "local")) eqn:Hl.
  { simpl. destruct (_load_local_source source); simpl;
      [apply project_and_cache_outcome | apply try_raised]. }
  apply try_unknown_type; [done| |].
  - intros ->. by rewrite (proj2 (py_eq_str _ _)) in Hg.
  - intros ->. by rewrite (proj2 (py_eq_str _ _)) in Hl.
Qed.

(** One turn of the loop always returns, never touches the heap, only adds
    lines to the output, and stores at most one entry: the normalized
    projection, under the (truthy, hashable) name of the descriptor. *)
Lemma load_source_step self source w :
  exists c' lines,
    load_source self source w
      = (Ok tt, World c' (stdout w ++ lines) (heap w)) /\
    (c' = sources_cache w \/
     exists k x,
       py_truthy (dict_get source "name") = true /\
       to_hkey (dict_get source "name") = Some k /\
       c' = cache_set (sources_cache w) k (SourceEntry (normalize x) source)).
Proof.
  unfold load_source.
  destruct (py_truthy (dict_get source "name")) eqn:Hn; simpl.
  - unfold try_except.
    destruct (load_source_try_outcome self source (dict_get source "name") w)
      as [e|type_ Ht Hg Hl|k data_ structure x Hk Hs Hp]; simpl.
    + eexists _, _. split; [done|]. by left.
    + eexists _, _. split; [done|]. by left.
    + eexists _, _. split; [done|]. right. by exists k, x.
  - eexists _, _. split; [done|]. by left.
Qed.

(** The whole loop returns, and every entry it leaves in the cache is an old
    one or the normalized projection of a configured descriptor with a truthy
    name. *)
Lemma load_all_sources_invariant (P : hkey -> source_entry -> Prop)
    self sources w :
  (forall source x k,
      source ∈ sources ->
      py_truthy (dict_get source "name") = true ->
      hkey_eqb k <$> to_hkey (dict_get source "name") = Some true ->
      P k (SourceEntry (normalize x) source)) ->
  (forall k e, (k, e) ∈ sources_cache w -> P k e) ->
  exists c' lines,
    for_each (load_source self) sources w
      = (Ok tt, World c' (stdout w ++ lines) (heap w)) /\
    forall k e, (k, e) ∈ c' -> P k e.
Proof.
  revert w. induction sources as [|source rest IH]; intros w Hnew Hold.
  - exists (sources_cache w), []. simpl. rewrite app_nil_r.
    split; [by destruct w | done].
  - destruct (load_source_step self source w) as (c1 & l1 & Hstep & Hc1).
    simpl. rewrite Hstep.
    destruct (IH (World c1 (stdout w ++ l1) (heap w))) as (c' & l2 & Hrest & HP).
    + intros s x k Hin. apply Hnew. by apply elem_of_cons; right.
    + simpl. intros k e Hin. destruct Hc1 as [->|(k0 & x & Hn & Hk & ->)].
      * by apply Hold.
      * apply cache_set_elem in Hin as [Hin|[-> Heq]]; [by apply Hold|].
        apply Hnew; [by apply elem_of_cons; left | done |].
        rewrite Hk. simpl. by rewrite Heq.
    + exists c', (l1 ++ l2)%list. simpl in Hrest. rewrite Hrest.
      by rewrite app_assoc.
Qed.

Lemma init_invariant (P : hkey -> source_entry -> Prop) sources token w :
  (forall source x k,
      source ∈ default [] sources ->
      py_truthy (dict_get source "name") = true ->
      hkey_eqb k <$> to_hkey (dict_get source "name") = Some true ->
      P k (SourceEntry (normalize x) source)) ->
  exists c' lines,
    __init__ sources token w
      = (Ok {| device_info_sources := default [] sources; gh_token := token |},
         World c' (stdout w ++ lines) (heap w)) /\
    forall k e, (k, e) ∈ c' -> P k e.
Proof.
  intros Hnew. unfold __init__, _load_all_sources. run.
  case_bool_decide as Hnil; simpl.
  - exists [], []. rewrite app_nil_r. split; [done|].
    intros k e Hin. by apply elem_of_nil in Hin.
  - destruct (load_all_sources_invariant P
               {| device_info_sources := default [] sources; gh_token := token |}
               (default [] sources) (World [] (stdout w) (heap w)))
      as (c' & lines & Hrun & HP); [done | |].
    { simpl. intros k e Hin. by apply elem_of_nil in Hin. }
    simpl in Hrun. rewrite Hrun. by exists c', lines.
Qed.

End Loading.

(** ** Loading: the claims *)

(** C8.  A descriptor whose [name] is absent or empty (falsy: [dict_get]
    answers [None] for an absent key) is skipped: its turn of the loop
    returns normally, prints the warning, and leaves the cache as it was; and
    whatever the configuration, no entry of the cache built by the
    constructor has such a descriptor as its [config], so the merge, which
    visits the cache only, never sees it. *)
Theorem missing_name_is_skipped `{Collaborators}
    (self : DeviceInfoReader) (source : record) (w : world) :
  py_truthy (dict_get source "name") = false ->
  load_source self source w
    = (Ok tt, World (sources_cache w) (stdout w ++ [WarnMissingName]) (heap w))
  /\ forall sources token w0 k e,
       (k, e) ∈ sources_cache (__init__ sources token w0).2 ->
       config e <> source.
Proof.
  intros Hname. split.
  - unfold load_source. by rewrite Hname.
  - intros sources token w0 k e.
    destruct (init_invariant
                (fun _ e => py_truthy (dict_get (config e) "name") = true)
                sources token w0) as (c' & lines & -> & HP); [done|].
    simpl. intros Hin%HP Heq. congruence.
Qed.

Lemma missing_name_is_skipped_witness :
  py_truthy (dict_get Demo.unnamed "name") = false
  /\ load_source (H := Demo.collaborators)
        {| device_info_sources := [Demo.unnamed]; gh_token := None |}
        Demo.unnamed Demo.w0
      = (Ok tt, World [] [WarnMissingName] (heap Demo.w0))
  /\ forall sources token w0 k e,
       (k, e) ∈ sources_cache
                  (__init__ (H := Demo.collaborators) sources token w0).2 ->
       config e <> Demo.unnamed.
Proof.
  split; [reflexivity|].
  apply (missing_name_is_skipped (H := Demo.collaborators)
           {| device_info_sources := [Demo.unnamed]; gh_token := None |}
           Demo.unnamed Demo.w0).
  reflexivity.
Defined.

(** C1, as the code has it.  The tag of a remote source is the string
    [github].  For a descriptor with a truthy name: with [type] equal to
    [github] the [try] block runs the GitHub fetcher and goes on with its
    payload, with [local] the local fetcher; with any other [type] no fetcher
    runs, the turn returns normally, the cache is as it was and the warning
    names the type and the source; with no [type] at all the [KeyError] is
    caught and printed as an error, and the cache is as it was. *)
Theorem type_dispatch `{Collaborators}
    (self : DeviceInfoReader) (source : record) (w : world) :
  py_truthy (dict_get source "name") = true ->
  let source_name := dict_get source "name" in
  (source !! "type" = Some (VStr "github") ->
   load_source_try self source source_name w
     = (data_ <- lift (_load_github_source self source) ;;
        project_and_cache source source_name data_) w)
  /\ (source !! "type" = Some (VStr "local") ->
      load_source_try self source source_name w
        = (data_ <- lift (_load_local_source source) ;;
           project_and_cache source source_name data_) w)
  /\ (forall type_,
        source !! "type" = Some type_ ->
        type_ <> VStr "github" -> type_ <> VStr "local" ->
        load_source self source w
          = (Ok tt, World (sources_cache w)
                          (stdout w ++ [WarnUnknownType type_ source_name])
                          (heap w)))
  /\ (source !! "type" = None ->
      load_source self source w
        = (Ok tt, World (sources_cache w)
                        (stdout w ++ [ErrorLoading source_name (KeyError "type")])
                        (heap w))).
Proof.
  intros Hname source_name. subst source_name.
  unfold load_source, load_source_try, dict_getitem. rewrite Hname. simpl.
  split; [|split; [|split]].
  - by intros ->.
  - by intros ->.
  - intros type_ -> Hg Hl. unfold try_except. simpl.
    by rewrite (py_eq_str_false _ _ Hg), (py_eq_str_false _ _ Hl).
  - by intros ->.
Qed.

Lemma type_dispatch_witness :
  let self := {| device_info_sources := [Demo.github; Demo.remote];
                 gh_token := None |} in
  (py_truthy (dict_get Demo.github "name") = true
   /\ Demo.github !! "type" = Some (VStr "github")
   /\ load_source_try (H := Demo.collaborators) self
         Demo.github (dict_get Demo.github "name") Demo.w0
       = (data_ <- lift (_load_github_source (H := Demo.collaborators)
                           self Demo.github) ;;
          project_and_cache (H := Demo.collaborators)
            Demo.github (dict_get Demo.github "name") data_) Demo.w0)
  /\ (py_truthy (dict_get Demo.remote "name") = true
      /\ Demo.remote !! "type" = Some (VStr "remote")
      /\ load_source (H := Demo.collaborators) self Demo.remote Demo.w0
          = (Ok tt, World [] [WarnUnknownType (VStr "remote") (VStr "specs")]
                          (heap Demo.w0))).
Proof.
  intros self. split.
  - split; [reflexivity|]. split; [reflexivity|].
    exact (proj1 (type_dispatch (H := Demo.collaborators) self
                    Demo.github Demo.w0 eq_refl) eq_refl).
  - split; [reflexivity|]. split; [reflexivity|].
    apply (proj1 (proj2 (proj2 (type_dispatch (H := Demo.collaborators) self
                                  Demo.remote Demo.w0 eq_refl)))
             (VStr "remote") eq_refl); discriminate.
Defined.

(** C1, as the spec words it ([remote] for the tag), fails: a descriptor
    with [type] [remote] is not fetched at all, it gets the unknown-type
    warning and no cache entry; one with [type] [github], which is not in
    {remote, local}, is fetched and cached; and one with no [type], which is
    not in {remote, local} either, gets no warning naming a type but the
    error line of a caught [KeyError]. *)
Lemma type_remote_is_unknown :
  (__init__ (H := Demo.collaborators) (Some [Demo.remote]) None Demo.w0).2
    = World [] [WarnUnknownType (VStr "remote") (VStr "specs")] (heap Demo.w0)
  /\ (__init__ (H := Demo.collaborators) (Some [Demo.github]) None Demo.w0).2
    = World [(KStr "specs",
              SourceEntry
                (VList [VDict (Demo.rec_ [("model", VStr "X1");
                                          ("ram", VStr "8GB")])])
                Demo.github)]
            [Loaded 1 (VStr "specs")] (heap Demo.w0)
  /\ (__init__ (H := Demo.collaborators) (Some [Demo.untyped]) None Demo.w0).2
    = World [] [ErrorLoading (VStr "specs") (KeyError "type")] (heap Demo.w0).
Proof. repeat split; reflexivity. Qed.

(** C2.  The constructor always returns, whatever the configuration and
    whatever the collaborators raise; and when the [try] block of a source
    raises [e], the turn of that source returns normally, the cache is as it
    was, the error is printed with the name of the source, and the loop goes
    on with the next descriptor from there. *)
Theorem load_failure_is_isolated `{Collaborators} :
  (forall sources token w,
      exists self w', __init__ sources token w = (Ok self, w'))
  /\ (forall self source rest w e w1,
        py_truthy (dict_get source "name") = true ->
        load_source_try self source (dict_get source "name") w = (Raise e, w1) ->
        let w2 := World (sources_cache w)
                        (stdout w ++ [ErrorLoading (dict_get source "name") e])
                        (heap w) in
        load_source self source w = (Ok tt, w2)
        /\ for_each (load_source self) (source :: rest) w
           = for_each (load_source self) rest w2).
Proof.
  split.
  - intros sources token w.
    destruct (init_invariant (fun _ _ => True) sources token w)
      as (c' & lines & -> & _); [done|]. by eexists _, _.
  - intros self source rest w e w1 Hname Htry w2.
    assert (w1 = w) as ->.
    { pose proof (load_source_try_outcome self source (dict_get source "name") w)
        as Hout. rewrite Htry in Hout. by inversion Hout. }
    assert (load_source self source w = (Ok tt, w2)) as Hstep.
    { unfold load_source. rewrite Hname. simpl. unfold try_except.
      by rewrite Htry. }
    split; [done|]. simpl. by rewrite Hstep.
Qed.

Lemma load_failure_is_isolated_witness :
  let self := {| device_info_sources := [Demo.missing; Demo.specs];
                 gh_token := None |} in
  let w2 := World [] [ErrorLoading (VStr "gone")
                        (Raised "FileNotFoundError" "missing.json")]
                  (heap Demo.w0) in
  py_truthy (dict_get Demo.missing "name") = true
  /\ load_source_try (H := Demo.collaborators) self Demo.missing
        (dict_get Demo.missing "name") Demo.w0
      = (Raise (Raised "FileNotFoundError" "missing.json"), Demo.w0)
  /\ load_source (H := Demo.collaborators) self Demo.missing Demo.w0
      = (Ok tt, w2)
  /\ for_each (load_source (H := Demo.collaborators) self)
        [Demo.missing; Demo.specs] Demo.w0
      = for_each (load_source (H := Demo.collaborators) self) [Demo.specs] w2.
Proof.
  split; [reflexivity|]. split; [reflexivity|].
  apply (proj2 (load_failure_is_isolated (H := Demo.collaborators))
           {| device_info_sources := [Demo.missing; Demo.specs];
              gh_token := None |}
           Demo.missing [Demo.specs] Demo.w0
           (Raised "FileNotFoundError" "missing.json") Demo.w0);
    reflexivity.
Defined.

(** C7.  Every entry of the cache the constructor builds has a list as its
    [data]; what a source that loads stores is the normalized projection; and
    normalizing keeps a list as it is (length N), wraps a truthy non-list in
    a list of one, and turns a falsy non-list into the empty list. *)
Theorem cached_data_is_a_sequence `{Collaborators} :
  (forall sources token w k e,
      (k, e) ∈ sources_cache (__init__ sources token w).2 ->
      exists items, data e = VList items)
  /\ (forall self source w k data_ structure x,
        py_truthy (dict_get source "name") = true ->
        to_hkey (dict_get source "name") = Some k ->
        (source !! "type" = Some (VStr "github")
           /\ _load_github_source self source = Ok data_) \/
        (source !! "type" = Some (VStr "local")
           /\ _load_local_source source = Ok data_) ->
        source !! "structure" = Some structure ->
        project data_ structure = Ok x ->
        load_source self source w
          = (Ok tt,
             World (cache_set (sources_cache w) k
                      (SourceEntry (normalize x) source))
                   (stdout w ++ [Loaded (py_len (normalize x))
                                        (dict_get source "name")])
                   (heap w)))
  /\ (forall x,
        match x with
        | VList items => normalize x = VList items
        | _ => normalize x = if py_truthy x then VList [x] else VList []
        end).
Proof.
  split; [|split].
  - intros sources token w k e.
    destruct (init_invariant (fun _ e => exists items, data e = VList items)
                sources token w) as (c' & lines & -> & HP); [|by apply HP].
    intros source x k' _ _ _. simpl. unfold normalize.
    destruct (is_list x) eqn:Hx; [destruct x; try done; by eexists|].
    destruct (py_truthy x); by eexists.
  - intros self source w k data_ structure x Hname Hk Hfetch Hs Hp.
    unfold load_source. rewrite Hname. simpl.
    unfold try_except, load_source_try, project_and_cache, dict_getitem.
    destruct Hfetch as [[-> ->]|[-> ->]]; simpl;
      rewrite Hs; simpl; rewrite Hp; simpl; rewrite Hk; by run.
  - intros x. by destruct x.
Qed.

Lemma cached_data_is_a_sequence_witness :
  let x := VDict (Demo.rec_ [("model", VStr "X1")]) in
  (exists items, data (SourceEntry (VList [x]) Demo.single) = VList items)
  /\ load_source (H := Demo.collaborators)
        {| device_info_sources := []; gh_token := None |} Demo.single Demo.w0
      = (Ok tt,
         World [(KStr "specs", SourceEntry (VList [x]) Demo.single)]
               [Loaded 1 (VStr "specs")] (heap Demo.w0)).
Proof.
  intros x. split.
  - apply (proj1 (cached_data_is_a_sequence (H := Demo.collaborators))
             (Some [Demo.single]) None Demo.w0 (KStr "specs")).
    vm_compute. apply list_elem_of_here.
  - apply (proj1 (proj2 (cached_data_is_a_sequence (H := Demo.collaborators)))
             {| device_info_sources := []; gh_token := None |}
             Demo.single Demo.w0 (KStr "specs") x (VInt 1) x);
      first [reflexivity | right; split; reflexivity].
Defined.

(** ** Lookup *)

(** The scan returns the first matching record of the list, if any. *)
Lemma scan_items_first (items : list value) (lookup_field : string)
    (lookup_value : value) :
  exists found,
    scan_items items (VStr lookup_field) lookup_value = Ok found /\
    match found with
    | Some item =>
        exists i,
          items !! i = Some (VDict item) /\
          item_matches lookup_field lookup_value (VDict item) = true /\
          forall j x, (j < i)%nat -> items !! j = Some x ->
                      item_matches lookup_field lookup_value x = false
    | None =>
        forall x, x ∈ items -> item_matches lookup_field lookup_value x = false
    end.
Proof.
  induction items as [|x items (found & Hscan & Hfound)].
  - exists None. split; [done|]. intros x Hin. by apply elem_of_nil in Hin.
  - assert (item_matches lookup_field lookup_value x = false ->
            scan_items (x :: items) (VStr lookup_field) lookup_value
              = scan_items items (VStr lookup_field) lookup_value) as Hskip.
    { destruct x; simpl; try done. by intros ->. }
    destruct (item_matches lookup_field lookup_value x) eqn:Hx.
    + destruct x as [| | | | |item]; try discriminate.
      exists (Some item). simpl in *. rewrite Hx. split; [done|].
      exists 0%nat. split; [done|]. split; [done|]. lia.
    + exists found. rewrite Hskip by done. split; [done|].
      destruct found as [item|].
      * destruct Hfound as (i & Hi & Hm & Hbefore).
        exists (S i). split; [done|]. split; [done|].
        intros [|j] y Hlt Hy; simpl in Hy.
        -- by injection Hy as <-.
        -- apply (Hbefore j); [lia | done].
      * intros y [->|Hin]%elem_of_cons; [done | by apply Hfound].
Qed.

(** C5.  [_lookup_in_source] with a field name: not found when the source
    is not in the cache; over a cached list it returns, without raising, the
    first item in list order that is a record whose [lookup_field] is [==]
    the value (every item before it is no such record), and not found when
    no item is one.  [==] does not coerce: values of different kinds are
    never equal, and a value equals a string only when it is that very
    string. *)
Theorem lookup_returns_first_match (c : cache) (source_name : hkey)
    (lookup_field : string) (lookup_value : value) :
  (cache_get c source_name = None ->
   _lookup_in_source c source_name (VStr lookup_field) lookup_value = Ok None)
  /\ (forall cached_source items,
        cache_get c source_name = Some cached_source ->
        data cached_source = VList items ->
        exists found,
          _lookup_in_source c source_name (VStr lookup_field) lookup_value
            = Ok found /\
          match found with
          | Some item =>
              exists i,
                items !! i = Some (VDict item) /\
                py_eq (dict_get item lookup_field) lookup_value = true /\
                forall j x, (j < i)%nat -> items !! j = Some x ->
                            item_matches lookup_field lookup_value x = false
          | None =>
              forall x, x ∈ items ->
                        item_matches lookup_field lookup_value x = false
          end)
  /\ (forall x y, py_eq x y = true -> kind_of x = kind_of y)
  /\ (forall x s, py_eq x (VStr s) = true <-> x = VStr s).
Proof.
  split; [|split; [|split]].
  - unfold _lookup_in_source. by intros ->.
  - intros cached_source items Hc Hd. unfold _lookup_in_source.
    rewrite Hc, Hd. apply scan_items_first.
  - apply py_eq_kind.
  - apply py_eq_str.
Qed.

Lemma lookup_returns_first_match_witness :
  let c := sources_cache (Demo.loaded [Demo.dups]) in
  let items :=
    [VStr "note";
     VDict (Demo.rec_ [("model", VStr "X0"); ("ram", VStr "4GB")]);
     VDict (Demo.rec_ [("model", VStr "X1"); ("ram", VStr "8GB")]);
     VDict (Demo.rec_ [("model", VStr "X1"); ("ram", VStr "16GB")])] in
  (cache_get c (KStr "specs") = Some (SourceEntry (VList items) Demo.dups)
   /\ _lookup_in_source c (KStr "specs") (VStr "model") (VStr "X1")
       = Ok (Some (Demo.rec_ [("model", VStr "X1"); ("ram", VStr "8GB")]))
   /\ outcome (get_device_info (H := Demo.collaborators)
                 {| device_info_sources := [Demo.dups]; gh_token := None |}
                 "id" "d1" (Demo.loaded [Demo.dups]))
       = Ok (Some (Some Demo.d1_specs)))
  /\ exists found,
       _lookup_in_source c (KStr "specs") (VStr "model") (VStr "X1") = Ok found
       /\ match found with
          | Some item =>
              exists i,
                items !! i = Some (VDict item) /\
                py_eq (dict_get item "model") (VStr "X1") = true /\
                forall j x, (j < i)%nat -> items !! j = Some x ->
                            item_matches "model" (VStr "X1") x = false
          | None =>
              forall x, x ∈ items -> item_matches "model" (VStr "X1") x = false
          end.
Proof.
  intros c items. split; [repeat split; reflexivity|].
  exact (proj1 (proj2 (lookup_returns_first_match c (KStr "specs") "model"
                         (VStr "X1")))
           (SourceEntry (VList items) Demo.dups) items eq_refl eq_refl).
Defined.

(** ** Merge: what one turn of the loop does *)

Lemma prefixed_key_inj (source_name : hkey) :
  Inj (=) (=) (prefixed_key source_name).
Proof.
  intros k1 k2 Hk. unfold prefixed_key in Hk.
  by apply (inj (String.app "_")), (inj (String.app (py_str source_name))).
Qed.

Lemma world_eta (w : world) :
  World (sources_cache w) (stdout w) (heap w) = w.
Proof. by destruct w. Qed.

(** One turn changes nothing but the content of [current_data], which
    becomes the [overlay] of what [find_match] found. *)
Lemma merge_source_run (ota_data current_data : loc) (source_name : hkey)
    (cached_source : source_entry) (w : world) (ota cur : record) :
  heap w !! ota_data = Some ota ->
  heap w !! current_data = Some cur ->
  merge_source ota_data current_data (source_name, cached_source) w
    = match find_match (sources_cache w) ota cur source_name cached_source with
      | Ok match_ =>
          (Ok tt, World (sources_cache w) (stdout w)
                        (<[current_data := overlay source_name match_ cur]>
                           (heap w)))
      | Raise e => (Raise e, w)
      end.
Proof.
  intros Hota Hcur. unfold merge_source, deref, mutate. run.
  rewrite Hota. simpl. rewrite Hcur. simpl.
  destruct (find_match _ _ _ _ _) as [[m|]|e]; simpl; [|by rewrite insert_id, world_eta|done].
  by rewrite Hcur.
Qed.

Lemma for_each_cons {A} (body : A -> M unit) (x : A) (rest : list A)
    (w : world) :
  for_each body (x :: rest) w
    = match body x w with
      | (Ok _, w') => for_each body rest w'
      | (Raise e, w') => (Raise e, w')
      end.
Proof. reflexivity. Qed.

(** The loop over the sources, on a [current_data] that is not [ota_data]. *)
Lemma merge_loop_run (ota_data current_data : loc) (sources : cache)
    (w : world) (ota cur : record) :
  ota_data <> current_data ->
  heap w !! ota_data = Some ota ->
  heap w !! current_data = Some cur ->
  exists out d,
    for_each (merge_source ota_data current_data) sources w
      = (out, World (sources_cache w) (stdout w)
                    (<[current_data := d]> (heap w))) /\
    match merged_record (sources_cache w) ota cur sources with
    | Ok merged => out = Ok tt /\ d = merged
    | Raise e => out = Raise e
    end.
Proof.
  intros Hne. revert w cur.
  induction sources as [|[source_name cached_source] rest IH];
    intros w cur Hota Hcur.
  - exists (Ok tt), cur. simpl. by rewrite insert_id, world_eta.
  - rewrite for_each_cons, (merge_source_run _ _ _ _ _ ota cur) by done.
    simpl.
    destruct (find_match _ _ _ _ _) as [match_|e]; simpl.
    + destruct (IH (World (sources_cache w) (stdout w)
                      (<[current_data := overlay source_name match_ cur]>
                         (heap w)))
                   (overlay source_name match_ cur))
        as (out & d & Hrun & Hout).
      * simpl. by rewrite lookup_insert_ne.
      * simpl. by rewrite lookup_insert_eq.
      * simpl in *. rewrite Hrun, insert_insert_eq. by exists out, d.
    + exists (Raise e), cur. by rewrite insert_id, world_eta.
Qed.

(** The merge: it reads [ota_data], works on a new object, and leaves every
    other object, the cache and the output as they were. *)
Lemma merge_run (self : DeviceInfoReader) (ota_data : loc) (w : world)
    (ota : record) :
  heap w !! ota_data = Some ota ->
  let current_data := fresh (dom (heap w)) in
  heap w !! current_data = None /\
  exists out d,
    _merge_sources_into_device self ota_data w
      = (out, World (sources_cache w) (stdout w)
                    (<[current_data := d]> (heap w))) /\
    match merged_record (sources_cache w) ota ota (sources_cache w) with
    | Ok merged => out = Ok current_data /\ d = merged
    | Raise e => out = Raise e
    end.
Proof.
  intros Hota current_data.
  assert (heap w !! current_data = None) as Hfresh.
  { apply not_elem_of_dom, is_fresh. }
  split; [done|].
  unfold _merge_sources_into_device, deref, alloc. run. rewrite Hota. simpl.
  fold current_data.
  destruct (merge_loop_run ota_data current_data (sources_cache w)
              (World (sources_cache w) (stdout w)
                 (<[current_data := ota]> (heap w))) ota ota)
    as (out & d & Hrun & Hout).
  - intros ->. congruence.
  - simpl. rewrite lookup_insert_ne; [done | intros <-; congruence].
  - simpl. by rewrite lookup_insert_eq.
  - simpl in *. rewrite Hrun, insert_insert_eq.
    destruct (merged_record _ _ _ _) as [merged|e].
    + destruct Hout as [-> ->]. by exists (Ok current_data), merged.
    + subst out. by exists (Raise e), d.
Qed.

(** ** Merge: the claims *)

Lemma find_match_resolved (c : cache) (ota_data current_data : record)
    (source_name : hkey) (cached_source : source_entry) :
  py_truthy (dict_get (config cached_source) "lookup_field") = true ->
  find_match c ota_data current_data source_name cached_source
    = (lookup_value <-
         resolve_match_value (config cached_source) ota_data current_data ;;
       if py_truthy lookup_value then
         match_ <- _lookup_in_source c source_name
                     (dict_get (config cached_source) "lookup_field")
                     lookup_value ;;
         Ok (match match_ with
             | Some m => if py_truthy (VDict m) then Some m else None
             | None => None
             end)
       else Ok None).
Proof.
  intros Hlf. unfold find_match, resolve_match_value, dict_getitem, dict_get.
  unfold dict_get in Hlf. rewrite Hlf. simpl.
  destruct (config cached_source !! "match_from") as [match_from|]; simpl.
  - destruct (py_truthy match_from); simpl.
    + destruct (py_get current_data match_from) as [v|]; simpl; [|done].
      destruct (py_truthy v); [|done].
      destruct (_lookup_in_source _ _ _ _) as [[m|]|]; simpl; try done.
      by destruct (negb _).
    + destruct (py_get ota_data _) as [v|]; simpl; [|done].
      destruct (py_truthy v); [|done].
      destruct (_lookup_in_source _ _ _ _) as [[m|]|]; simpl; try done.
      by destruct (negb _).
  - destruct (py_get ota_data _) as [v|]; simpl; [|done].
    destruct (py_truthy v); [|done].
    destruct (_lookup_in_source _ _ _ _) as [[m|]|]; simpl; try done.
    by destruct (negb _).
Qed.

(** C3.  In the turn of a cached source with a [lookup_field], the match
    value is [resolve_match_value]: read from the accumulating record when
    [match_from] is set, from the original primary record otherwise; a falsy
    value ends the turn with no match and no lookup, a truthy one is looked
    up in the source.  The accumulating record a turn reads is the one the
    turns before it left ([merged_record]), so a source merged earlier
    supplies the match key of a later one. *)
Theorem match_value_resolution :
  (forall c ota_data current_data source_name cached_source,
      py_truthy (dict_get (config cached_source) "lookup_field") = true ->
      forall lookup_value,
        resolve_match_value (config cached_source) ota_data current_data
          = Ok lookup_value ->
        (py_truthy lookup_value = false ->
         find_match c ota_data current_data source_name cached_source = Ok None)
        /\ (py_truthy lookup_value = true ->
            find_match c ota_data current_data source_name cached_source
              = (match_ <- _lookup_in_source c source_name
                             (dict_get (config cached_source) "lookup_field")
                             lookup_value ;;
                 Ok (match match_ with
                     | Some m => if py_truthy (VDict m) then Some m else None
                     | None => None
                     end))))
  /\ (forall self ota_data w ota merged,
        heap w !! ota_data = Some ota ->
        merged_record (sources_cache w) ota ota (sources_cache w) = Ok merged ->
        exists current_data,
          _merge_sources_into_device self ota_data w
            = (Ok current_data,
               World (sources_cache w) (stdout w)
                     (<[current_data := merged]> (heap w)))).
Proof.
  split.
  - intros c ota_data current_data source_name cached_source Hlf v Hv.
    rewrite find_match_resolved by done. rewrite Hv. simpl.
    split; by intros ->.
  - intros self ota_data w ota merged Hota Hmerged.
    destruct (merge_run self ota_data w ota Hota) as (_ & out & d & Hrun & Hout).
    rewrite Hmerged in Hout. destruct Hout as [-> ->]. by eexists.
Qed.

Lemma match_value_resolution_witness :
  let w := Demo.loaded [Demo.specs; Demo.vendors] in
  let c := sources_cache w in
  (py_truthy (dict_get Demo.vendors "lookup_field") = true
   /\ resolve_match_value Demo.vendors Demo.d1 Demo.d1 = Ok VNone
   /\ find_match c Demo.d1 Demo.d1 (KStr "vendors") Demo.vendors_entry
       = Ok None)
  /\ (resolve_match_value Demo.vendors Demo.d1 Demo.d1_specs = Ok (VStr "8GB")
      /\ find_match c Demo.d1 Demo.d1_specs (KStr "vendors") Demo.vendors_entry
          = (match_ <- _lookup_in_source c (KStr "vendors") (VStr "ram")
                         (VStr "8GB") ;;
             Ok (match match_ with
                 | Some m => if py_truthy (VDict m) then Some m else None
                 | None => None
                 end)))
  /\ (heap w !! 1%positive = Some Demo.d1
      /\ merged_record c Demo.d1 Demo.d1 c = Ok Demo.d1_specs_vendors
      /\ exists current_data,
           _merge_sources_into_device
               {| device_info_sources := [Demo.specs; Demo.vendors];
                  gh_token := None |} 1%positive w
             = (Ok current_data,
                World c (stdout w)
                      (<[current_data := Demo.d1_specs_vendors]> (heap w)))).
Proof.
  intros w c. split; [|split].
  - split; [reflexivity|]. split; [reflexivity|].
    exact (proj1 (proj1 match_value_resolution c Demo.d1 Demo.d1
                    (KStr "vendors") Demo.vendors_entry eq_refl
                    VNone eq_refl) eq_refl).
  - split; [reflexivity|].
    exact (proj2 (proj1 match_value_resolution c Demo.d1 Demo.d1_specs
                    (KStr "vendors") Demo.vendors_entry eq_refl
                    (VStr "8GB") eq_refl) eq_refl).
  - split; [reflexivity|]. split; [reflexivity|].
    exact (proj2 match_value_resolution
             {| device_info_sources := [Demo.specs; Demo.vendors];
                gh_token := None |} 1%positive w Demo.d1
             Demo.d1_specs_vendors eq_refl eq_refl).
Defined.

(** Every field of the record the turns of [sources] leave is a field the
    record had before them or has a key prefixed with the name of one of the
    sources. *)
Lemma merged_record_keys (c sources : cache) (ota cur merged : record) :
  merged_record c ota cur sources = Ok merged ->
  forall key,
    is_Some (merged !! key) ->
    is_Some (cur !! key) \/
    exists source_name cached_source k,
      (source_name, cached_source) ∈ sources /\
      key = py_str source_name +:+ "_" +:+ k.
Proof.
  revert cur. induction sources as [|[source_name cached_source] rest IH];
    intros cur; simpl.
  - intros [= <-] key Hkey. by left.
  - destruct (find_match c ota cur source_name cached_source)
      as [match_|e]; simpl; [|done].
    intros Hmerged key Hkey.
    destruct (IH _ Hmerged key Hkey) as [[v Hv]|(n & e & k & Hin & ->)].
    + destruct match_ as [m|]; simpl in Hv; [|left; by exists v].
      pose proof (prefixed_key_inj source_name) as Hinj.
      apply lookup_union_Some_raw in Hv as [Hv|[_ Hv]]; [|left; by exists v].
      apply (lookup_kmap_Some (prefixed_key source_name)) in Hv
        as (k & -> & _).
      right. exists source_name, cached_source, k.
      split; [apply list_elem_of_here | done].
    + right. exists n, e, k. split; [by apply elem_of_cons; right | done].
Qed.

(** C4, as the code has it.  When the turn of a source finds a match, every
    field of the match is overlaid on the accumulating record under the key
    [<source_name>_<field>], replacing a field of that name; every field of
    the record after the turn is such a prefixed field of the match or a
    field the record already had; so a key that is not of the prefixed form
    keeps what it had, and a bare key of the match is in the record only if
    the record had it or if it is itself the prefixed form of a key of the
    match.  And every key of the record a merge returns is a key of the
    primary record or the name of a cached source, [_], and a field name. *)
Theorem match_is_prefixed_and_overlaid :
  (forall ota_data current_data source_name cached_source w ota cur m,
      heap w !! ota_data = Some ota ->
      heap w !! current_data = Some cur ->
      find_match (sources_cache w) ota cur source_name cached_source
        = Ok (Some m) ->
      exists new,
        merge_source ota_data current_data (source_name, cached_source) w
          = (Ok tt, World (sources_cache w) (stdout w)
                          (<[current_data := new]> (heap w)))
        /\ (forall k v, m !! k = Some v ->
                        new !! (py_str source_name +:+ "_" +:+ k) = Some v)
        /\ (forall key v,
              new !! key = Some v ->
              (exists k, key = py_str source_name +:+ "_" +:+ k /\
                         m !! k = Some v)
              \/ cur !! key = Some v)
        /\ (forall key,
              (forall k, is_Some (m !! k) ->
                         key <> py_str source_name +:+ "_" +:+ k) ->
              new !! key = cur !! key))
  /\ (forall self ota_data w ota merged w' d,
        heap w !! ota_data = Some ota ->
        _merge_sources_into_device self ota_data w = (Ok merged, w') ->
        heap w' !! merged = Some d ->
        forall key,
          is_Some (d !! key) ->
          is_Some (ota !! key) \/
          exists source_name cached_source k,
            (source_name, cached_source) ∈ sources_cache w /\
            key = py_str source_name +:+ "_" +:+ k).
Proof.
  split.
  - intros ota_data current_data source_name cached_source w ota cur m
      Hota Hcur Hm.
    pose proof (prefixed_key_inj source_name) as Hinj.
    exists (dict_update (prefixed_match source_name m) cur).
    rewrite (merge_source_run _ _ _ _ _ ota cur), Hm by done.
    split; [done|]. unfold dict_update, prefixed_match.
    split; [|split].
    + intros k v Hk. apply lookup_union_Some_raw. left.
      change (py_str source_name +:+ "_" +:+ k)
        with (prefixed_key source_name k).
      by rewrite lookup_kmap by apply _.
    + intros key v [Hkey|[_ Hkey]]%lookup_union_Some_raw; [left | by right].
      by apply (lookup_kmap_Some (prefixed_key source_name)) in Hkey.
    + intros key Hkey. apply lookup_union_r.
      apply (lookup_kmap_None (prefixed_key source_name)).
      intros k ->. destruct (m !! k) as [v|] eqn:Hk; [|done].
      destruct (Hkey k); [by eexists | done].
  - intros self ota_data w ota merged w' d Hota Hrun Hd.
    destruct (merge_run self ota_data w ota Hota)
      as (_ & out & d' & Hrun' & Hout).
    rewrite Hrun in Hrun'. injection Hrun' as <- ->.
    destruct (merged_record _ _ _ _) as [d''|e] eqn:Hmerged; [|done].
    destruct Hout as [[= ->] ->]. simpl in Hd.
    rewrite lookup_insert_eq in Hd. injection Hd as <-.
    by apply (merged_record_keys _ _ _ _ _ Hmerged).
Qed.

Lemma match_is_prefixed_and_overlaid_witness :
  let w1 := Demo.loaded [Demo.specs] in
  let w := World (sources_cache w1) (stdout w1)
                 (<[4%positive := Demo.d1]> (heap w1)) in
  let m := Demo.rec_ [("model", VStr "X1"); ("ram", VStr "8GB")] in
  (heap w !! 1%positive = Some Demo.d1
   /\ heap w !! 4%positive = Some Demo.d1
   /\ find_match (sources_cache w) Demo.d1 Demo.d1 (KStr "specs")
        (SourceEntry (VList [VDict m]) Demo.specs) = Ok (Some m))
  /\ exists new,
       merge_source 1%positive 4%positive
           (KStr "specs", SourceEntry (VList [VDict m]) Demo.specs) w
         = (Ok tt, World (sources_cache w) (stdout w)
                         (<[4%positive := new]> (heap w)))
       /\ (forall k v, m !! k = Some v ->
                       new !! ("specs" +:+ "_" +:+ k) = Some v)
       /\ (forall key v,
             new !! key = Some v ->
             (exists k, key = "specs" +:+ "_" +:+ k /\ m !! k = Some v)
             \/ Demo.d1 !! key = Some v)
       /\ (forall key,
             (forall k, is_Some (m !! k) -> key <> "specs" +:+ "_" +:+ k) ->
             new !! key = Demo.d1 !! key).
Proof.
  intros w1 w m. split; [repeat split; reflexivity|].
  exact (proj1 match_is_prefixed_and_overlaid 1%positive 4%positive
           (KStr "specs") (SourceEntry (VList [VDict m]) Demo.specs)
           w Demo.d1 Demo.d1 m eq_refl eq_refl eq_refl).
Defined.

(** C4, as the spec words it, fails: the source [a] matches the record
    [{b: 2, a_b: 1}]; the merged record has the key [a_b], a bare key of the
    matched record that the primary record did not have (it is the prefixed
    form of the field [b]). *)
Lemma bare_key_of_match_in_output :
  let w := Demo.loaded [Demo.clash] in
  let m := Demo.rec_ [("b", VInt 2); ("a_b", VInt 1)] in
  let self := {| device_info_sources := [Demo.clash]; gh_token := None |} in
  let run := get_device_info (H := Demo.collaborators) self "id" "d3" w in
  heap w !! 3%positive = Some Demo.d3
  /\ find_match (sources_cache w) Demo.d3 Demo.d3 (KStr "a")
       (SourceEntry (VList [VDict m]) Demo.clash) = Ok (Some m)
  /\ outcome run
     = Ok (Some (Some (Demo.rec_ [("id", VStr "d3"); ("b", VInt 2);
                                  ("a_b", VInt 2); ("a_a_b", VInt 1)])))
  /\ m !! "a_b" = Some (VInt 1)
  /\ Demo.d3 !! "a_b" = None.
Proof. repeat split; reflexivity. Qed.

Lemma merged_record_no_match (c sources : cache) (ota : record) :
  (forall source_name cached_source,
      (source_name, cached_source) ∈ sources ->
      find_match c ota ota source_name cached_source = Ok None) ->
  merged_record c ota ota sources = Ok ota.
Proof.
  induction sources as [|[source_name cached_source] rest IH]; intros Hnone;
    [done|].
  simpl. rewrite (Hnone source_name cached_source) by apply list_elem_of_here.
  simpl. apply IH. intros n e Hin. apply Hnone. by apply elem_of_cons; right.
Qed.

(** C6.  When no source of the cache produces a match for the primary
    record, the merge returns a new record with exactly the fields of the
    primary record.  A source without a truthy [lookup_field] produces no
    match, and neither does one whose match value is falsy. *)
Theorem merge_without_match_is_identity :
  (forall self ota_data w ota,
      heap w !! ota_data = Some ota ->
      (forall source_name cached_source,
          (source_name, cached_source) ∈ sources_cache w ->
          find_match (sources_cache w) ota ota source_name cached_source
            = Ok None) ->
      exists merged,
        _merge_sources_into_device self ota_data w
          = (Ok merged, World (sources_cache w) (stdout w)
                              (<[merged := ota]> (heap w)))
        /\ heap w !! merged = None)
  /\ (forall c ota_data current_data source_name cached_source,
        py_truthy (dict_get (config cached_source) "lookup_field") = false ->
        find_match c ota_data current_data source_name cached_source = Ok None)
  /\ (forall c ota_data current_data source_name cached_source lookup_value,
        resolve_match_value (config cached_source) ota_data current_data
          = Ok lookup_value ->
        py_truthy lookup_value = false ->
        find_match c ota_data current_data source_name cached_source = Ok None).
Proof.
  split; [|split].
  - intros self ota_data w ota Hota Hnone.
    destruct (merge_run self ota_data w ota Hota)
      as (Hfresh & out & d & Hrun & Hout).
    rewrite merged_record_no_match in Hout by done.
    destruct Hout as [-> ->]. by eexists.
  - intros c ota_data current_data source_name cached_source Hlf.
    unfold find_match. by rewrite Hlf.
  - intros c ota_data current_data source_name cached_source v Hv Hfalsy.
    destruct (py_truthy (dict_get (config cached_source) "lookup_field"))
      eqn:Hlf.
    + rewrite find_match_resolved, Hv by done. simpl. by rewrite Hfalsy.
    + unfold find_match. by rewrite Hlf.
Qed.

Lemma finds_nothing_all (c sources : cache) (ota : record) :
  forallb (finds_nothing c ota) sources = true ->
  forall source_name cached_source,
    (source_name, cached_source) ∈ sources ->
    find_match c ota ota source_name cached_source = Ok None.
Proof.
  intros Hall source_name cached_source Hin%list_elem_of_In.
  rewrite forallb_forall in Hall. specialize (Hall _ Hin).
  unfold finds_nothing in Hall. simpl in Hall.
  by destruct (find_match _ _ _ _ _) as [[m|]|e].
Qed.

Lemma merge_without_match_is_identity_witness :
  let w := Demo.loaded [Demo.plain; Demo.vendors; Demo.other] in
  let self := {| device_info_sources := [Demo.plain; Demo.vendors; Demo.other];
                 gh_token := None |} in
  (length (sources_cache w) = 3%nat
   /\ heap w !! 1%positive = Some Demo.d1
   /\ forallb (finds_nothing (sources_cache w) Demo.d1) (sources_cache w) = true)
  /\ exists merged,
       _merge_sources_into_device self 1%positive w
         = (Ok merged, World (sources_cache w) (stdout w)
                             (<[merged := Demo.d1]> (heap w)))
       /\ heap w !! merged = None.
Proof.
  intros w self. split; [repeat split; reflexivity|].
  apply (proj1 merge_without_match_is_identity self 1%positive w Demo.d1).
  - reflexivity.
  - apply finds_nothing_all. reflexivity.
Defined.

(** ** The facade, and what a merge leaves untouched *)

(** What a merge does to the state, and what it returns. *)
Lemma merge_effect (self : DeviceInfoReader) (ota_data : loc) (w : world)
    (ota : record) :
  heap w !! ota_data = Some ota ->
  exists out w',
    _merge_sources_into_device self ota_data w = (out, w') /\
    (forall l d, heap w !! l = Some d -> heap w' !! l = Some d) /\
    sources_cache w' = sources_cache w /\
    stdout w' = stdout w /\
    match merged_record (sources_cache w) ota ota (sources_cache w) with
    | Ok merged =>
        exists current_data,
          out = Ok current_data /\
          heap w !! current_data = None /\
          heap w' !! current_data = Some merged
    | Raise e => out = Raise e
    end.
Proof.
  intros Hota.
  destruct (merge_run self ota_data w ota Hota)
    as (Hfresh & out & d & Hrun & Hout).
  eexists out, _. split; [exact Hrun|]. simpl.
  split; [|split; [done|split; [done|]]].
  - intros l d' Hl. rewrite lookup_insert_ne; [done | intros <-; congruence].
  - destruct (merged_record _ _ _ _) as [merged|e]; [|done].
    destruct Hout as [-> ->]. eexists. split; [done|]. split; [done|].
    apply lookup_insert_eq.
Qed.

Section Facade.
Context `{Collaborators}.

(** The cases of [get_device_info]. *)
Lemma get_device_info_run self id_field id_value w :
  get_device_info self id_field id_value w
    = match json_reader_get_device_info id_field id_value with
      | Raise e => (Raise e, w)
      | Ok None => (Ok None, w)
      | Ok (Some l) =>
          match heap w !! l with
          | None => (Raise (Raised "ReferenceError" "no such object"), w)
          | Some ota =>
              if negb (py_truthy (VDict ota)) then (Ok None, w)
              else if bool_decide (device_info_sources self = [])
              then (Ok (Some l), w)
              else
                match _merge_sources_into_device self l w with
                | (Ok merged, w') => (Ok (Some merged), w')
                | (Raise e, w') => (Raise e, w')
                end
          end
      end.
Proof.
  unfold get_device_info, deref. run.
  destruct (json_reader_get_device_info id_field id_value) as [[l|]|e];
    simpl; try done.
  destruct (heap w !! l) as [ota|]; simpl; [|done].
  destruct (negb _); [done|]. by case_bool_decide.
Qed.

End Facade.

(** C10.  When the catalog reader answers with nothing, or with a record
    that is falsy (the empty mapping), [get_device_info] returns [None] and
    does nothing else: it neither merges nor returns the empty record. *)
Theorem falsy_catalog_record_is_absent `{Collaborators}
    (self : DeviceInfoReader) (id_field id_value : string) (w : world) :
  (json_reader_get_device_info id_field id_value = Ok None
   \/ exists l ota,
        json_reader_get_device_info id_field id_value = Ok (Some l) /\
        heap w !! l = Some ota /\ py_truthy (VDict ota) = false) ->
  get_device_info self id_field id_value w = (Ok None, w).
Proof.
  intros [Hnone|(l & ota & Hsome & Hl & Hfalsy)]; rewrite get_device_info_run.
  - by rewrite Hnone.
  - by rewrite Hsome, Hl, Hfalsy.
Qed.

Lemma falsy_catalog_record_is_absent_witness :
  let w := Demo.loaded [Demo.specs] in
  let self := {| device_info_sources := [Demo.specs]; gh_token := None |} in
  (json_reader_get_device_info (Collaborators := Demo.collaborators) "id" "d0"
     = Ok (Some 2%positive)
   /\ heap w !! 2%positive = Some ∅
   /\ py_truthy (VDict ∅) = false)
  /\ get_device_info (H := Demo.collaborators) self "id" "d0" w = (Ok None, w).
Proof.
  intros w self. split; [repeat split; reflexivity|].
  apply (falsy_catalog_record_is_absent (H := Demo.collaborators)
           self "id" "d0" w).
  right. exists 2%positive, ∅. repeat split; reflexivity.
Defined.

(** C9.  A merge changes no dict object that existed before it, in
    particular not the primary record: it works on a new object; and it
    leaves the cache (and the output) as they were.  So a call of
    [get_device_info] leaves every existing record and the cache as they
    were, and the same call made again gives the same outcome, a record with
    the same fields, and again leaves them as they were. *)
Theorem merge_mutates_nothing `{Collaborators} :
  (forall self ota_data w out w',
      _merge_sources_into_device self ota_data w = (out, w') ->
      (forall l d, heap w !! l = Some d -> heap w' !! l = Some d)
      /\ sources_cache w' = sources_cache w
      /\ forall merged, out = Ok merged ->
                        heap w !! merged = None /\ is_Some (heap w' !! merged))
  /\ (forall self id_field id_value w out w',
        get_device_info self id_field id_value w = (out, w') ->
        (forall l d, heap w !! l = Some d -> heap w' !! l = Some d)
        /\ sources_cache w' = sources_cache w
        /\ exists out2 w'',
             get_device_info self id_field id_value w' = (out2, w'')
             /\ outcome (out2, w'') = outcome (out, w')
             /\ (forall l d, heap w !! l = Some d -> heap w'' !! l = Some d)
             /\ sources_cache w'' = sources_cache w).
Proof.
  split.
  - intros self ota_data w out w' Hrun.
    destruct (heap w !! ota_data) as [ota|] eqn:Hota.
    + destruct (merge_effect self ota_data w ota Hota)
        as (out1 & w1 & Hrun1 & Hframe & Hcache & _ & Hout).
      rewrite Hrun in Hrun1. injection Hrun1 as <- <-.
      split; [done|]. split; [done|]. intros merged ->.
      destruct (merged_record _ _ _ _) as [d|e]; [|done].
      destruct Hout as (current_data & [= <-] & Hnew & Hd). by rewrite Hd.
    + unfold _merge_sources_into_device, deref in Hrun. simpl in Hrun.
      rewrite Hota in Hrun. injection Hrun as <- <-. by repeat split.
  - intros self id_field id_value w out w' Hrun.
    rewrite get_device_info_run in Hrun.
    destruct (json_reader_get_device_info id_field id_value)
      as [[l|]|e] eqn:Hreader.
    2,3: injection Hrun as <- <-; split; [done|]; split; [done|];
         eexists _, w; rewrite get_device_info_run, Hreader; by repeat split.
    destruct (heap w !! l) as [ota|] eqn:Hl.
    2: { injection Hrun as <- <-. split; [done|]. split; [done|].
         eexists _, w. rewrite get_device_info_run, Hreader, Hl.
         by repeat split. }
    destruct (negb (py_truthy (VDict ota))) eqn:Htruthy.
    { injection Hrun as <- <-. split; [done|]. split; [done|].
      eexists _, w. rewrite get_device_info_run, Hreader, Hl, Htruthy.
      by repeat split. }
    case_bool_decide as Hsources.
    { injection Hrun as <- <-. split; [done|]. split; [done|].
      eexists _, w. rewrite get_device_info_run, Hreader, Hl, Htruthy.
      rewrite bool_decide_eq_true_2 by done. by repeat split. }
    destruct (merge_effect self l w ota Hl)
      as (out1 & w1 & Hrun1 & Hframe1 & Hcache1 & _ & Hout1).
    rewrite Hrun1 in Hrun.
    assert (w' = w1) as -> by (destruct out1; by injection Hrun).
    split; [done|]. split; [done|].
    destruct (merge_effect self l w1 ota (Hframe1 _ _ Hl))
      as (out2 & w2 & Hrun2 & Hframe2 & Hcache2 & _ & Hout2).
    rewrite Hcache1 in Hout2.
    exists (match out2 with
            | Ok merged => Ok (Some merged)
            | Raise e => Raise e
            end), w2.
    rewrite get_device_info_run, Hreader, (Hframe1 _ _ Hl).
    rewrite Htruthy, bool_decide_eq_false_2, Hrun2 by done.
    split; [by destruct out2|]. split; [|split].
    + destruct (merged_record _ _ _ _) as [d|e].
      * destruct Hout1 as (r1 & -> & _ & Hd1).
        destruct Hout2 as (r2 & -> & _ & Hd2).
        injection Hrun as <-. unfold outcome. simpl. by rewrite Hd1, Hd2.
      * subst out1 out2. by injection Hrun as <-.
    + intros l' d' Hl'. by apply Hframe2, Hframe1.
    + congruence.
Qed.

Lemma merge_mutates_nothing_witness :
  let w := Demo.loaded [Demo.specs] in
  let self := {| device_info_sources := [Demo.specs]; gh_token := None |} in
  let run1 := get_device_info (H := Demo.collaborators) self "id" "d1" w in
  (run1.1 = Ok (Some 4%positive)
   /\ outcome run1 = Ok (Some (Some Demo.d1_specs)))
  /\ (forall l d, heap w !! l = Some d -> heap run1.2 !! l = Some d)
  /\ sources_cache run1.2 = sources_cache w
  /\ exists out2 w'',
       get_device_info (H := Demo.collaborators) self "id" "d1" run1.2
         = (out2, w'')
       /\ outcome (out2, w'') = outcome (run1.1, run1.2)
       /\ (forall l d, heap w !! l = Some d -> heap w'' !! l = Some d)
       /\ sources_cache w'' = sources_cache w.
Proof.
  intros w self run1. split; [split; reflexivity|].
  apply (proj2 (merge_mutates_nothing (H := Demo.collaborators))
           self "id" "d1" w run1.1 run1.2).
  reflexivity.
Defined.

(** ** Further properties *)



(** The merges of a list of records, one after the other: the results come
    in the order of the list, one for each record, and each is the merge of
    its record against the same cache. *)
Lemma merge_each_run (self : DeviceInfoReader) (ota_devices : list loc)
    (w : world) :
  (forall l, l ∈ ota_devices -> is_Some (heap w !! l)) ->
  exists out w',
    merge_each self ota_devices w = (out, w') /\
    (forall l d, heap w !! l = Some d -> heap w' !! l = Some d) /\
    sources_cache w' = sources_cache w /\
    forall all_devices,
      out = Ok all_devices ->
      Forall2 (fun l merged =>
                 exists ota d,
                   heap w !! l = Some ota /\
                   merged_record (sources_cache w) ota ota (sources_cache w)
                     = Ok d /\
                   heap w' !! merged = Some d)
              ota_devices all_devices.
Proof.
  revert w. induction ota_devices as [|l rest IH]; intros w Hvalid.
  - exists (Ok []), w. repeat split; try done. intros ? [= <-]. constructor.
  - destruct (Hvalid l) as [ota Hl]; [apply list_elem_of_here|].
    destruct (merge_effect self l w ota Hl)
      as (out1 & w1 & Hrun1 & Hframe1 & Hcache1 & _ & Hout1).
    simpl. rewrite Hrun1.
    destruct (merged_record _ _ _ _) as [d|e] eqn:Hmerged.
    + destruct Hout1 as (r1 & -> & Hnew1 & Hd1).
      destruct (IH w1) as (out2 & w2 & Hrun2 & Hframe2 & Hcache2 & Hout2).
      { intros l' Hin. destruct (Hvalid l') as [d' Hl'];
          [by apply elem_of_cons; right|]. exists d'. by apply Hframe1. }
      simpl. rewrite Hrun2. destruct out2 as [rs|e]; simpl.
      * exists (Ok (r1 :: rs)), w2. split; [done|].
        split; [by intros; apply Hframe2, Hframe1|].
        split; [congruence|]. intros ? [= <-]. constructor.
        -- exists ota, d. split; [done|]. split; [done|]. by apply Hframe2.
        -- specialize (Hout2 rs eq_refl).
           apply Forall2_same_length_lookup in Hout2 as [Hlen Hrel].
           apply Forall2_same_length_lookup. split; [done|].
           intros i l' r' Hi Hr.
           destruct (Hrel i l' r' Hi Hr) as (ota' & d' & Hl' & Hd' & Hr').
           rewrite Hcache1 in Hd'.
           destruct (Hvalid l') as [ota'' Hl''].
           { apply elem_of_cons. right. by eapply list_elem_of_lookup_2. }
           exists ota', d'. split; [|done].
           pose proof (Hframe1 _ _ Hl'') as Heq. congruence.
      * exists (Raise e), w2. split; [done|].
        split; [by intros; apply Hframe2, Hframe1|].
        split; [congruence|]. by intros.
    + subst out1. exists (Raise e), w1. simpl. by repeat split.
Qed.

(** [get_all_devices]: with no source configured it returns the list of the
    catalog reader as it is; otherwise it returns one merged record for each
    record of the catalog, in the order of the catalog, and changes no
    record that existed. *)
Theorem get_all_devices_keeps_order `{Collaborators}
    (self : DeviceInfoReader) (w : world) (ota_devices : list loc) :
  json_reader_get_all_devices = Ok ota_devices ->
  (device_info_sources self = [] ->
   get_all_devices self w = (Ok ota_devices, w))
  /\ (device_info_sources self <> [] ->
      (forall l, l ∈ ota_devices -> is_Some (heap w !! l)) ->
      exists out w',
        get_all_devices self w = (out, w') /\
        (forall l d, heap w !! l = Some d -> heap w' !! l = Some d) /\
        forall all_devices,
          out = Ok all_devices ->
          Forall2 (fun l merged =>
                     exists ota d,
                       heap w !! l = Some ota /\
                       merged_record (sources_cache w) ota ota (sources_cache w)
                         = Ok d /\
                       heap w' !! merged = Some d)
                  ota_devices all_devices).
Proof.
  intros Hreader. unfold get_all_devices. run. rewrite Hreader. simpl.
  split.
  - intros Hnone. by rewrite bool_decide_eq_true_2.
  - intros Hsome Hvalid. rewrite bool_decide_eq_false_2 by done.
    destruct (merge_each_run self ota_devices w Hvalid)
      as (out & w' & Hrun & Hframe & _ & Hout).
    by exists out, w'.
Qed.

Lemma get_all_devices_keeps_order_witness :
  let w := Demo.loaded [Demo.specs] in
  let self := {| device_info_sources := [Demo.specs]; gh_token := None |} in
  let run1 := get_all_devices (H := Demo.collaborators) self w in
  (json_reader_get_all_devices (Collaborators := Demo.collaborators)
     = Ok [1%positive; 3%positive]
   /\ run1.1 = Ok [4%positive; 5%positive]
   /\ heap run1.2 !! 4%positive = Some Demo.d1_specs
   /\ heap run1.2 !! 5%positive = Some Demo.d3)
  /\ exists out w',
       get_all_devices (H := Demo.collaborators) self w = (out, w') /\
       (forall l d, heap w !! l = Some d -> heap w' !! l = Some d) /\
       forall all_devices,
         out = Ok all_devices ->
         Forall2 (fun l merged =>
                    exists ota d,
                      heap w !! l = Some ota /\
                      merged_record (sources_cache w) ota ota (sources_cache w)
                        = Ok d /\
                      heap w' !! merged = Some d)
                 [1%positive; 3%positive] all_devices.
Proof.
  intros w self run1. split; [repeat split; reflexivity|].
  apply (proj2 (get_all_devices_keeps_order (H := Demo.collaborators)
                  self w [1%positive; 3%positive] eq_refl)).
  - discriminate.
  - intros l Hin. apply elem_of_cons in Hin as [->|Hin]; [by eexists|].
    apply elem_of_cons in Hin as [->|Hin]; [by eexists|].
    by apply elem_of_nil in Hin.
Defined.

(** The scenarios of the specification, run on the stand-ins: a record
    enriched by one source, and a record whose only source fails to load. *)
Example end_to_end_one_source :
  let self := {| device_info_sources := [Demo.specs]; gh_token := None |} in
  outcome (get_device_info (H := Demo.collaborators) self "id" "d1"
             (Demo.loaded [Demo.specs]))
    = Ok (Some (Some (Demo.rec_ [("id", VStr "d1"); ("model", VStr "X1");
                                 ("specs_model", VStr "X1");
                                 ("specs_ram", VStr "8GB")]))).
Proof. reflexivity. Qed.

Example end_to_end_failed_source :
  let self := {| device_info_sources := [Demo.missing]; gh_token := None |} in
  stdout (Demo.loaded [Demo.missing])
    = [ErrorLoading (VStr "gone") (Raised "FileNotFoundError" "missing.json")]
  /\ outcome (get_device_info (H := Demo.collaborators) self "id" "d1"
                (Demo.loaded [Demo.missing]))
     = Ok (Some (Some Demo.d1)).
Proof. split; reflexivity. Qed.

(** ** The log formatter *)

Lemma split_cons_dot (rest : string) :
  Logger.split (String "."%char rest) = "" :: Logger.split rest.
Proof. reflexivity. Qed.

Lemma split_not_nil (s : string) : Logger.split s <> [].
Proof.
  destruct s as [|c rest]; simpl; [done|].
  case_bool_decide; [done|]. by destruct (Logger.split rest).
Qed.

Lemma join_split (s : string) : Logger.join (Logger.split s) = s.
Proof.
  induction s as [|c rest IH]; [done|]. simpl.
  case_bool_decide as Hc.
  - subst c. pose proof (split_not_nil rest) as Hne.
    destruct (Logger.split rest) as [|part parts]; [done|].
    simpl in *. by rewrite IH.
  - pose proof (split_not_nil rest) as Hne.
    destruct (Logger.split rest) as [|part parts]; [done|].
    destruct parts as [|part2 parts]; simpl in *; by rewrite <- IH.
Qed.

Lemma split_dot_free_app (a rest : string) :
  dot_free a = true ->
  Logger.split (a +:+ "." +:+ rest) = a :: Logger.split rest.
Proof.
  induction a as [|c a IH]; simpl; [done|].
  intros [Hc Ha]%andb_prop. apply negb_true_iff in Hc. rewrite Hc.
  by rewrite IH.
Qed.

Lemma split_parts_dot_free (s : string) :
  Forall (fun part => dot_free part = true) (Logger.split s).
Proof.
  induction s as [|c rest IH]; simpl; [by repeat constructor|].
  case_bool_decide as Hc; [by constructor|].
  destruct (Logger.split rest) as [|part parts]; simpl.
  - repeat constructor. simpl. by rewrite bool_decide_eq_false_2.
  - apply Forall_cons in IH as [Hpart Hparts]. constructor; [|done].
    simpl. by rewrite bool_decide_eq_false_2.
Qed.

(** With the full module path, the formatter shows the name of a logger
    under [RomKit] without the leading ["RomKit."], whatever follows it. *)
Theorem module_name_full_strips_root (rest : string) :
  Logger.module_name true ("RomKit." +:+ rest) = rest.
Proof.
  unfold Logger.module_name.
  change ("RomKit." +:+ rest) with ("RomKit" +:+ "." +:+ rest).
  rewrite (split_dot_free_app "RomKit" rest) by done.
  pose proof (split_not_nil rest) as Hne. pose proof (join_split rest) as Hjoin.
  destruct (Logger.split rest) as [|second parts]; [done|].
  by rewrite bool_decide_eq_true_2.
Qed.

(** Without the full module path, the formatter shows the first component
    after ["RomKit."]: a name without a dot that the rest of the logger name
    is, or starts with and goes on from with a dot. *)
Theorem module_name_short_is_first_component (rest : string) :
  let shown := Logger.module_name false ("RomKit." +:+ rest) in
  dot_free shown = true
  /\ (rest = shown \/ exists more, rest = shown +:+ "." +:+ more).
Proof.
  unfold Logger.module_name.
  change ("RomKit." +:+ rest) with ("RomKit" +:+ "." +:+ rest).
  rewrite (split_dot_free_app "RomKit" rest) by done.
  pose proof (split_not_nil rest) as Hne. pose proof (join_split rest) as Hjoin.
  pose proof (split_parts_dot_free rest) as Hfree.
  destruct (Logger.split rest) as [|second parts]; [done|].
  rewrite bool_decide_eq_true_2 by done. simpl.
  apply Forall_cons in Hfree as [Hsecond _]. split; [done|].
  destruct parts as [|third parts]; [by left|].
  right. exists (Logger.join (third :: parts)). by rewrite <- Hjoin.
Qed.

(** A logger whose name does not start with ["RomKit."] (the logger
    ["RomKit"] itself, a library's logger, a name such as ["RomKitX.y"]) is
    shown under its whole name, in both modes. *)
Theorem module_name_outside_root (full_module_path : bool) (name : string) :
  (forall rest, name <> "RomKit." +:+ rest) ->
  Logger.module_name full_module_path name = name.
Proof.
  intros Hname. unfold Logger.module_name.
  pose proof (join_split name) as Hjoin.
  destruct (Logger.split name) as [|first [|second parts]]; [done..|].
  case_bool_decide as Hfirst; [|done]. subst first.
  destruct (Hname (Logger.join (second :: parts))). by rewrite <- Hjoin.
Qed.

Lemma module_name_outside_root_witness :
  (forall rest, "httpx" <> "RomKit." +:+ rest)
  /\ Logger.module_name false "httpx" = "httpx".
Proof.
  assert (forall rest, "httpx" <> "RomKit." +:+ rest) as Hne by done.
  split; [exact Hne|].
  exact (module_name_outside_root false "httpx" Hne).
Defined.

(** A decidable property of characters holds of all of them when it holds of
    the 256 of them. *)
Lemma ascii_all (P : ascii -> Prop) `{forall c, Decision (P c)} :
  forallb (fun n => bool_decide (P (ascii_of_nat n))) (seq 0 256) = true ->
  forall c, P c.
Proof.
  intros Hall c. rewrite forallb_forall in Hall.
  rewrite <- (ascii_nat_embedding c).
  eapply bool_decide_eq_true, Hall, in_seq.
  pose proof (nat_ascii_bounded c). lia.
Qed.

Lemma lower_ascii_inv (c : ascii) :
  (Logger.lower_ascii c = "t"%char <-> c = "t"%char \/ c = "T"%char)
  /\ (Logger.lower_ascii c = "r"%char <-> c = "r"%char \/ c = "R"%char)
  /\ (Logger.lower_ascii c = "u"%char <-> c = "u"%char \/ c = "U"%char)
  /\ (Logger.lower_ascii c = "e"%char <-> c = "e"%char \/ c = "E"%char).
Proof.
  revert c.
  apply (ascii_all (fun c =>
    (Logger.lower_ascii c = "t"%char <-> c = "t"%char \/ c = "T"%char)
    /\ (Logger.lower_ascii c = "r"%char <-> c = "r"%char \/ c = "R"%char)
    /\ (Logger.lower_ascii c = "u"%char <-> c = "u"%char \/ c = "U"%char)
    /\ (Logger.lower_ascii c = "e"%char <-> c = "e"%char \/ c = "E"%char))).
  vm_compute. reflexivity.
Qed.

(** The full module path is shown exactly when [ROMKIT_FULL_MODULE_PATH] is
    set to the word [true] in any mix of upper and lower case; unset, empty,
    or set to anything else ([1], [yes], [true ] with a blank), it is not. *)
Theorem full_module_path_flag (env : option string) :
  Logger.FULL_MODULE_PATH env = true <->
  exists t r u e,
    env = Some (String t (String r (String u (String e ""))))
    /\ (t = "t"%char \/ t = "T"%char) /\ (r = "r"%char \/ r = "R"%char)
    /\ (u = "u"%char \/ u = "U"%char) /\ (e = "e"%char \/ e = "E"%char).
Proof.
  unfold Logger.FULL_MODULE_PATH. rewrite bool_decide_eq_true. split.
  - destruct env as [s|]; [|discriminate]. simpl.
    destruct s as [|t [|r [|u [|e [|x s]]]]]; try discriminate.
    intros [= Ht Hr Hu He]. exists t, r, u, e. split; [done|].
    split; [by apply (lower_ascii_inv t)|].
    split; [by apply (lower_ascii_inv r)|].
    split; [by apply (lower_ascii_inv u) | by apply (lower_ascii_inv e)].
  - intros (t & r & u & e & -> & Ht & Hr & Hu & He). simpl.
    apply (lower_ascii_inv t) in Ht. apply (lower_ascii_inv r) in Hr.
    apply (lower_ascii_inv u) in Hu. apply (lower_ascii_inv e) in He.
    by rewrite Ht, Hr, Hu, He.
Qed.

(** ** The cache as a dict *)

Lemma hkey_eqb_sym (a b : hkey) : hkey_eqb a b = hkey_eqb b a.
Proof.
  unfold hkey_eqb. destruct a, b; simpl; try done;
    first [apply Z.eqb_sym | apply bool_decide_ext; split; congruence].
Qed.

Lemma hkey_eqb_trans (a b c : hkey) :
  hkey_eqb a b = true -> hkey_eqb b c = true -> hkey_eqb a c = true.
Proof.
  unfold hkey_eqb. destruct a, b, c; simpl; try done;
    rewrite ?bool_decide_eq_true, ?Z.eqb_eq; intros; subst; try done;
    repeat match goal with b : bool |- _ => destruct b end;
    simpl in *; congruence.
Qed.

(** Assigning under one name leaves what is stored under the others. *)
Lemma cache_get_set_other (c : cache) (name other : hkey) (e : source_entry) :
  hkey_eqb name other = false ->
  cache_get (cache_set c name e) other = cache_get c other.
Proof.
  intros Hother. induction c as [|[k0 e0] c IH]; simpl.
  - by rewrite Hother.
  - destruct (hkey_eqb k0 name) eqn:Hk; simpl; [|by rewrite IH].
    destruct (hkey_eqb k0 other) eqn:Ho; [|done].
    rewrite hkey_eqb_sym in Hk.
    by rewrite (hkey_eqb_trans _ _ _ Hk Ho) in Hother.
Qed.

Lemma cache_set_length (c : cache) (name : hkey) (e : source_entry) :
  (length c <= length (cache_set c name e) <= S (length c))%nat.
Proof.
  induction c as [|[k0 e0] c IH]; simpl; [lia|].
  destruct (hkey_eqb k0 name); simpl; lia.
Qed.

Lemma cache_set_lookup (c : cache) (name : hkey) (e : source_entry)
    (i : nat) (k : hkey) (e' : source_entry) :
  cache_set c name e !! i = Some (k, e') ->
  (exists e0, c !! i = Some (k, e0)) \/
  (k = name /\ i = length c /\ forall j kj ej,
                 c !! j = Some (kj, ej) -> hkey_eqb kj name = false).
Proof.
  revert i. induction c as [|[k0 e0] c IH]; intros i; simpl.
  - destruct i as [|i]; simpl; [|done]. intros [= <- <-]. right.
    split; [done|]. split; [done|]. by intros [|j].
  - destruct (hkey_eqb k0 name) eqn:Hk.
    + destruct i as [|i]; simpl.
      * intros [= <- <-]. left. by eexists.
      * intros Hi. left. by eexists.
    + destruct i as [|i]; simpl.
      * intros [= <- <-]. left. by eexists.
      * intros Hi. destruct (IH i Hi) as [?|(-> & -> & Hno)]; [by left|].
        right. split; [done|]. split; [done|].
        intros [|j] kj ej; simpl; [by intros [= <- <-] | apply Hno].
Qed.

Lemma cache_set_distinct (c : cache) (name : hkey) (e : source_entry) :
  distinct_names c -> distinct_names (cache_set c name e).
Proof.
  intros Hc i j ki kj ei ej Hi Hj Heq.
  apply cache_set_lookup in Hi as [[ei0 Hi]|(-> & -> & Hi)];
    apply cache_set_lookup in Hj as [[ej0 Hj]|(-> & -> & Hj)].
  - by eapply Hc.
  - rewrite (Hj _ _ _ Hi) in Heq. done.
  - rewrite hkey_eqb_sym, (Hi _ _ _ Hj) in Heq. done.
  - done.
Qed.

Section CacheInvariants.
Context `{Collaborators}.

(** One turn of the loop prints exactly one line. *)
Lemma load_source_one_line self source w :
  exists c' line,
    load_source self source w
      = (Ok tt, World c' (stdout w ++ [line]) (heap w)) /\
    (c' = sources_cache w \/
     exists k x,
       to_hkey (dict_get source "name") = Some k /\
       c' = cache_set (sources_cache w) k (SourceEntry (normalize x) source)).
Proof.
  unfold load_source.
  destruct (py_truthy (dict_get source "name")) eqn:Hn; simpl.
  - unfold try_except.
    destruct (load_source_try_outcome self source (dict_get source "name") w)
      as [e|type_ Ht Hg Hl|k data_ structure x Hk Hs Hp]; simpl.
    + eexists _, _. split; [done|]. by left.
    + eexists _, _. split; [done|]. by left.
    + eexists _, _. split; [done|]. right. by exists k, x.
  - eexists _, _. split; [done|]. by left.
Qed.

(** A property of the cache that every assignment keeps holds after the
    loop, which prints one line and stores at most one entry for each
    descriptor. *)
Lemma load_all_sources_keeps (I : cache -> Prop) self sources w :
  (forall c k e, I c -> I (cache_set c k e)) ->
  I (sources_cache w) ->
  exists c' lines,
    for_each (load_source self) sources w
      = (Ok tt, World c' (stdout w ++ lines) (heap w)) /\
    length lines = length sources /\
    (length c' <= length (sources_cache w) + length sources)%nat /\
    I c'.
Proof.
  intros Hset. revert w. induction sources as [|source rest IH]; intros w Hw.
  - exists (sources_cache w), []. simpl. rewrite app_nil_r.
    split; [by destruct w|]. split; [done|]. split; [lia | done].
  - destruct (load_source_one_line self source w) as (c1 & l1 & Hstep & Hc1).
    simpl. rewrite Hstep.
    destruct (IH (World c1 (stdout w ++ [l1]) (heap w)))
      as (c' & l2 & Hrest & Hlen & Hsize & HI).
    { simpl. destruct Hc1 as [->|(k & x & _ & ->)]; [done | by apply Hset]. }
    exists c', (l1 :: l2). simpl in Hrest, Hsize. rewrite Hrest.
    rewrite <- app_assoc. simpl. rewrite Hlen.
    split; [done|]. split; [done|]. split; [|done].
    destruct Hc1 as [->|(k & x & _ & ->)]; [lia|].
    pose proof (cache_set_length (sources_cache w) k
                  (SourceEntry (normalize x) source)). lia.
Qed.

Lemma init_keeps (I : cache -> Prop) sources token w :
  (forall c k e, I c -> I (cache_set c k e)) ->
  I [] ->
  exists c' lines,
    __init__ sources token w
      = (Ok {| device_info_sources := default [] sources; gh_token := token |},
         World c' (stdout w ++ lines) (heap w)) /\
    length lines = length (default [] sources) /\
    (length c' <= length (default [] sources))%nat /\
    I c'.
Proof.
  intros Hset Hnil. unfold __init__, _load_all_sources. run.
  case_bool_decide as Hsources; simpl.
  - exists [], []. rewrite app_nil_r, Hsources. by repeat split.
  - destruct (load_all_sources_keeps I
               {| device_info_sources := default [] sources; gh_token := token |}
               (default [] sources) (World [] (stdout w) (heap w)) Hset Hnil)
      as (c' & lines & Hrun & Hlen & Hsize & HI).
    simpl in Hrun, Hsize. rewrite Hrun. by exists c', lines.
Qed.

End CacheInvariants.

(** The constructor prints exactly one line for each configured descriptor
    (a warning, an error or the count of items loaded), after what was
    printed before, and touches no record. *)
Theorem one_line_per_descriptor `{Collaborators}
    (sources : option (list record)) (token : option string) (w : world) :
  let w' := (__init__ sources token w).2 in
  exists lines,
    stdout w' = (stdout w ++ lines)%list
    /\ length lines = length (default [] sources)
    /\ heap w' = heap w.
Proof.
  destruct (init_keeps (fun _ => True) sources token w)
    as (c' & lines & Hrun & Hlen & _); [done..|].
  intros w'. subst w'. rewrite Hrun. simpl. by exists lines.
Qed.

(** The cache the constructor builds has at most one entry for each
    configured descriptor, and no two of its entries have names that are
    [==]: the merge visits every name once. *)
Theorem cache_names_are_distinct `{Collaborators}
    (sources : option (list record)) (token : option string) (w : world) :
  let c := sources_cache (__init__ sources token w).2 in
  (length c <= length (default [] sources))%nat /\ distinct_names c.
Proof.
  destruct (init_keeps distinct_names sources token w)
    as (c' & lines & Hrun & _ & Hsize & Hc).
  - intros c k e. apply cache_set_distinct.
  - by intros [|i] j ki kj ei ej.
  - intros c. subst c. by rewrite Hrun.
Qed.

(** Loading a source changes the cached entry of no other name: what the
    cache holds under a name that is not [==] the name of the descriptor is
    the same before and after its turn, whether the source loads or not. *)
Theorem loading_leaves_other_names `{Collaborators}
    (self : DeviceInfoReader) (source : record) (w : world) (other : hkey) :
  (forall k, to_hkey (dict_get source "name") = Some k ->
             hkey_eqb k other = false) ->
  cache_get (sources_cache (load_source self source w).2) other
    = cache_get (sources_cache w) other.
Proof.
  intros Hother.
  destruct (load_source_one_line self source w)
    as (c' & line & -> & [->|(k & x & Hk & ->)]); simpl; [done|].
  apply cache_get_set_other. by apply Hother.
Qed.

Lemma loading_leaves_other_names_witness :
  let w := Demo.loaded [Demo.specs] in
  let self := {| device_info_sources := []; gh_token := None |} in
  (forall k, to_hkey (dict_get Demo.vendors "name") = Some k ->
             hkey_eqb k (KStr "specs") = false)
  /\ is_Some (cache_get (sources_cache w) (KStr "specs"))
  /\ cache_get (sources_cache
                  (load_source (H := Demo.collaborators) self Demo.vendors w).2)
                (KStr "specs")
     = cache_get (sources_cache w) (KStr "specs").
Proof.
  intros w self.
  assert (forall k, to_hkey (dict_get Demo.vendors "name") = Some k ->
                    hkey_eqb k (KStr "specs") = false) as Hother.
  { intros k [= <-]. reflexivity. }
  split; [exact Hother|]. split; [by eexists|].
  exact (loading_leaves_other_names (H := Demo.collaborators)
           self Demo.vendors w (KStr "specs") Hother).
Defined.

(** Every entry of the cache the constructor builds belongs to one of the
    configured descriptors: its [config] is that descriptor, the name of the
    descriptor is truthy and hashable, and the entry is stored under a key
    that is [==] that name. *)
Theorem cache_entries_are_named `{Collaborators}
    (sources : option (list record)) (token : option string) (w : world)
    (k : hkey) (e : source_entry) :
  (k, e) ∈ sources_cache (__init__ sources token w).2 ->
  config e ∈ default [] sources
  /\ py_truthy (dict_get (config e) "name") = true
  /\ exists name, to_hkey (dict_get (config e) "name") = Some name
                  /\ hkey_eqb k name = true.
Proof.
  destruct (init_invariant
              (fun k e =>
                 config e ∈ default [] sources
                 /\ py_truthy (dict_get (config e) "name") = true
                 /\ exists name,
                      to_hkey (dict_get (config e) "name") = Some name
                      /\ hkey_eqb k name = true)
              sources token w) as (c' & lines & -> & HP); [|by apply HP].
  intros source x k' Hin Hname Hk. simpl. split; [done|]. split; [done|].
  destruct (to_hkey (dict_get source "name")) as [name|]; [|done].
  exists name. simpl in Hk. split; [done | congruence].
Qed.

Lemma cache_entries_are_named_witness :
  let e := SourceEntry
             (VList [VDict (Demo.rec_ [("model", VStr "X1");
                                       ("ram", VStr "8GB")])]) Demo.specs in
  (KStr "specs", e)
    ∈ sources_cache (__init__ (H := Demo.collaborators)
                       (Some [Demo.unnamed; Demo.specs]) None Demo.w0).2
  /\ config e ∈ [Demo.unnamed; Demo.specs]
  /\ py_truthy (dict_get (config e) "name") = true
  /\ exists name, to_hkey (dict_get (config e) "name") = Some name
                  /\ hkey_eqb (KStr "specs") name = true.
Proof.
  intros e.
  assert ((KStr "specs", e)
            ∈ sources_cache (__init__ (H := Demo.collaborators)
                               (Some [Demo.unnamed; Demo.specs]) None
                               Demo.w0).2) as Hin.
  { vm_compute. apply list_elem_of_here. }
  split; [exact Hin|].
  exact (cache_entries_are_named (H := Demo.collaborators)
           (Some [Demo.unnamed; Demo.specs]) None Demo.w0 (KStr "specs") e Hin).
Defined.

(** ** Loading: errors and edge cases *)

(** A descriptor that lacks a key the loader needs is reported with the
    [KeyError] of that key and not cached: [repo] of a [github] source
    (before anything is asked of GitHub), [file] of a [local] source, and
    [structure] of a source whose payload was fetched. *)
Theorem missing_key_is_reported `{Collaborators}
    (self : DeviceInfoReader) (source : record) (w : world) :
  py_truthy (dict_get source "name") = true ->
  let reported key :=
    load_source self source w
      = (Ok tt, World (sources_cache w)
                      (stdout w ++ [ErrorLoading (dict_get source "name")
                                                 (KeyError key)])
                      (heap w)) in
  (source !! "type" = Some (VStr "github") -> source !! "repo" = None ->
   reported "repo")
  /\ (source !! "type" = Some (VStr "local") -> source !! "file" = None ->
      reported "file")
  /\ (forall data_,
        (source !! "type" = Some (VStr "github")
           /\ _load_github_source self source = Ok data_) \/
        (source !! "type" = Some (VStr "local")
           /\ _load_local_source source = Ok data_) ->
        source !! "structure" = None ->
        reported "structure").
Proof.
  intros Hname reported. subst reported. simpl.
  unfold load_source. rewrite Hname. simpl.
  unfold try_except, load_source_try, project_and_cache.
  split; [|split].
  - unfold _load_github_source, dict_getitem. by intros -> ->.
  - unfold _load_local_source, dict_getitem. by intros -> ->.
  - intros data_ [[Ht ->]|[Ht ->]] Hs; unfold dict_getitem;
      rewrite Ht; simpl; by rewrite Hs.
Qed.

Lemma missing_key_is_reported_witness :
  let self := {| device_info_sources := []; gh_token := None |} in
  let norepo := delete "repo" Demo.github in
  let nostructure := delete "structure" Demo.specs in
  (py_truthy (dict_get norepo "name") = true
   /\ norepo !! "type" = Some (VStr "github") /\ norepo !! "repo" = None
   /\ load_source (H := Demo.collaborators) self norepo Demo.w0
      = (Ok tt, World [] [ErrorLoading (VStr "specs") (KeyError "repo")]
                      (heap Demo.w0)))
  /\ (py_truthy (dict_get nostructure "name") = true
      /\ nostructure !! "type" = Some (VStr "local")
      /\ is_Some (nostructure !! "file")
      /\ nostructure !! "structure" = None
      /\ load_source (H := Demo.collaborators) self nostructure Demo.w0
         = (Ok tt, World [] [ErrorLoading (VStr "specs") (KeyError "structure")]
                         (heap Demo.w0))).
Proof.
  intros self norepo nostructure. split.
  - split; [reflexivity|]. split; [reflexivity|]. split; [reflexivity|].
    exact (proj1 (missing_key_is_reported (H := Demo.collaborators)
                    self norepo Demo.w0 eq_refl) eq_refl eq_refl).
  - split; [reflexivity|]. split; [reflexivity|]. split; [by eexists|].
    split; [reflexivity|].
    refine (proj2 (proj2 (missing_key_is_reported (H := Demo.collaborators)
                            self nostructure Demo.w0 eq_refl))
              (VList [VDict (Demo.rec_ [("model", VStr "X1");
                                        ("ram", VStr "8GB")])]) _ eq_refl).
    right. split; reflexivity.
Defined.

(** A descriptor whose name is truthy but unhashable (a non-empty list or
    mapping) is never cached, whatever its source gives; when its payload is
    fetched and projected, the assignment to the cache is what fails, and
    the [TypeError] is printed. *)
Theorem unhashable_name_is_never_cached `{Collaborators}
    (self : DeviceInfoReader) (source : record) (w : world) :
  py_truthy (dict_get source "name") = true ->
  to_hkey (dict_get source "name") = None ->
  sources_cache (load_source self source w).2 = sources_cache w
  /\ (forall data_ structure x,
        (source !! "type" = Some (VStr "github")
           /\ _load_github_source self source = Ok data_) \/
        (source !! "type" = Some (VStr "local")
           /\ _load_local_source source = Ok data_) ->
        source !! "structure" = Some structure ->
        project data_ structure = Ok x ->
        load_source self source w
          = (Ok tt, World (sources_cache w)
                          (stdout w ++ [ErrorLoading (dict_get source "name")
                                          (TypeError "unhashable type")])
                          (heap w))).
Proof.
  intros Hname Hkey. split.
  - destruct (load_source_one_line self source w)
      as (c' & line & -> & [->|(k & x & Hk & ->)]); simpl; [done|].
    congruence.
  - intros data_ structure x Hfetch Hs Hp.
    unfold load_source. rewrite Hname. simpl.
    unfold try_except, load_source_try, project_and_cache, dict_getitem.
    destruct Hfetch as [[-> ->]|[-> ->]]; simpl;
      rewrite Hs; simpl; rewrite Hp; simpl; by rewrite Hkey.
Qed.

Lemma unhashable_name_is_never_cached_witness :
  let self := {| device_info_sources := []; gh_token := None |} in
  let source := <["name" := VList [VStr "specs"]]> Demo.specs in
  (py_truthy (dict_get source "name") = true
   /\ to_hkey (dict_get source "name") = None)
  /\ sources_cache (load_source (H := Demo.collaborators) self source Demo.w0).2
     = sources_cache Demo.w0
  /\ load_source (H := Demo.collaborators) self source Demo.w0
     = (Ok tt, World [] [ErrorLoading (VList [VStr "specs"])
                           (TypeError "unhashable type")] (heap Demo.w0)).
Proof.
  intros self source. split; [split; reflexivity|].
  destruct (unhashable_name_is_never_cached (H := Demo.collaborators)
              self source Demo.w0 eq_refl eq_refl) as [Hcache Hline].
  split; [exact Hcache|].
  refine (Hline (VList [VDict (Demo.rec_ [("model", VStr "X1");
                                          ("ram", VStr "8GB")])])
                (VList [VDict ∅]) _ _ eq_refl eq_refl).
  right. split; reflexivity.
Defined.

Section Token.
Context `{Collaborators}.

Lemma load_source_empty_token sources source w :
  load_source {| device_info_sources := sources; gh_token := Some "" |} source w
  = load_source {| device_info_sources := sources; gh_token := None |} source w.
Proof. reflexivity. Qed.

Lemma for_each_ext {A} (f g : A -> M unit) (l : list A) (w : world) :
  (forall x w, f x w = g x w) -> for_each f l w = for_each g l w.
Proof.
  intros Hfg. revert w. induction l as [|x l IH]; intros w; [done|].
  rewrite !for_each_cons, Hfg. destruct (g x w) as [[[]|e] w']; [apply IH|done].
Qed.

End Token.

(** An empty GitHub token is no token: the constructor given [""] asks
    GitHub as the constructor given [None] does, and leaves the same cache
    and the same output. *)
Theorem empty_token_is_no_token `{Collaborators}
    (sources : option (list record)) (w : world) :
  (__init__ sources (Some "") w).2 = (__init__ sources None w).2
  /\ forall source,
       _load_github_source
         {| device_info_sources := default [] sources; gh_token := Some "" |}
         source
       = _load_github_source
           {| device_info_sources := default [] sources; gh_token := None |}
           source.
Proof.
  split; [|done].
  unfold __init__, _load_all_sources. run.
  case_bool_decide; simpl; [done|].
  rewrite (for_each_ext _
             (load_source {| device_info_sources := default [] sources;
                             gh_token := None |}));
    [|intros; apply load_source_empty_token].
  by destruct (for_each _ _ _) as [[[]|e] w'].
Qed.

Section Projection.
Context `{Collaborators}.

Lemma extract_each_ok (items : list value) (schema : value)
    (xs : list value) :
  extract_each items schema = Ok xs <->
  Forall2 (fun item x => extract_data item schema = Ok x) items xs.
Proof.
  revert xs. induction items as [|item items IH]; intros xs; simpl.
  - split; [intros [= <-]; constructor | by intros ->%Forall2_nil_inv_l].
  - destruct (extract_data item schema) as [x|e] eqn:Hitem; simpl.
    + destruct (extract_each items schema) as [xs'|e] eqn:Hrest; simpl.
      * split.
        -- intros [= <-]. constructor; [done | by apply IH].
        -- intros (x' & xs'' & Hx & Hxs & ->)%Forall2_cons_inv_l.
           apply IH in Hxs. congruence.
      * split; [done|].
        intros (x' & xs'' & Hx & Hxs & ->)%Forall2_cons_inv_l.
        by apply IH in Hxs.
    + split; [done|].
      intros (x' & xs'' & Hx & Hxs & ->)%Forall2_cons_inv_l. congruence.
Qed.

Lemma extract_each_raises (before after : list value) (item schema : value)
    (xs : list value) (e : exn) :
  Forall2 (fun item x => extract_data item schema = Ok x) before xs ->
  extract_data item schema = Raise e ->
  extract_each (before ++ item :: after) schema = Raise e.
Proof.
  intros Hbefore Hitem. induction Hbefore as [|b x before xs Hb _ IH]; simpl.
  - by rewrite Hitem.
  - by rewrite Hb, IH.
Qed.

End Projection.

(** When the payload and [structure] are both lists and [structure] is not
    empty, each item of the payload is projected on the first element of
    [structure] (the others are not used), and the projection is the list of
    the results, one for each item, in the order of the payload; the first
    item whose projection raises makes the whole projection raise that
    exception, so a source is cached with all of its items or not at all. *)
Theorem list_projection_is_itemwise `{Collaborators}
    (items more : list value) (schema : value) :
  (forall x,
      project (VList items) (VList (schema :: more)) = Ok x <->
      exists xs,
        x = VList xs /\
        Forall2 (fun item x => extract_data item schema = Ok x) items xs)
  /\ (forall before item after xs e,
        items = (before ++ item :: after)%list ->
        Forall2 (fun item x => extract_data item schema = Ok x) before xs ->
        extract_data item schema = Raise e ->
        project (VList items) (VList (schema :: more)) = Raise e).
Proof.
  split.
  - intros x. simpl. split.
    + destruct (extract_each items schema) as [xs|e] eqn:Hxs; simpl; [|done].
      intros [= <-]. exists xs. split; [done | by apply extract_each_ok].
    + intros (xs & -> & Hxs). apply extract_each_ok in Hxs. by rewrite Hxs.
  - intros before item after xs e -> Hbefore Hitem. simpl.
    by rewrite (extract_each_raises before after item schema xs e).
Qed.

Lemma list_projection_is_itemwise_witness :
  let items := [VInt 1; VInt 2] in
  (Forall2 (fun item x =>
              extract_data (Collaborators := Demo.collaborators) item (VInt 0)
                = Ok x) items items
   /\ project (H := Demo.collaborators) (VList items) (VList [VInt 0; VNone])
      = Ok (VList items))
  /\ (Forall2 (fun item x =>
                 extract_data (Collaborators := Demo.collaborators) item VNone
                   = Ok x) [] []
      /\ extract_data (Collaborators := Demo.collaborators) (VInt 1) VNone
         = Raise (Raised "ValueError" "structure")
      /\ project (H := Demo.collaborators) (VList items) (VList [VNone])
         = Raise (Raised "ValueError" "structure")).
Proof.
  intros items.
  assert (Forall2 (fun item x =>
                     extract_data (Collaborators := Demo.collaborators)
                       item (VInt 0) = Ok x) items items) as Hall.
  { repeat constructor. }
  split.
  - split; [exact Hall|].
    apply (proj1 (list_projection_is_itemwise (H := Demo.collaborators)
                    items [VNone] (VInt 0))).
    by exists items.
  - split; [constructor|]. split; [reflexivity|].
    apply (proj2 (list_projection_is_itemwise (H := Demo.collaborators)
                    items [] VNone)
             [] (VInt 1) [VInt 2] [] (Raised "ValueError" "structure"));
      [reflexivity | constructor | reflexivity].
Defined.

(** ** The facade: no sources, errors of the catalog reader *)

(** A reader constructed with no sources ([None] or the empty list) loads
    and prints nothing and has an empty cache; its [get_device_info] gives
    back the very object the catalog reader returned, not a copy, creates no
    object and does not look at the cache. *)
Theorem no_sources_is_passthrough `{Collaborators}
    (sources : option (list record)) (token : option string) (w : world) :
  default [] sources = [] ->
  let self := {| device_info_sources := []; gh_token := token |} in
  __init__ sources token w = (Ok self, World [] (stdout w) (heap w))
  /\ forall id_field id_value w1 l ota,
       json_reader_get_device_info id_field id_value = Ok (Some l) ->
       heap w1 !! l = Some ota ->
       py_truthy (VDict ota) = true ->
       get_device_info self id_field id_value w1 = (Ok (Some l), w1).
Proof.
  intros Hsources self. subst self. split.
  - unfold __init__. run. by rewrite Hsources.
  - intros id_field id_value w1 l ota Hreader Hl Hota.
    by rewrite get_device_info_run, Hreader, Hl, Hota.
Qed.

Lemma no_sources_is_passthrough_witness :
  let w := Demo.loaded [Demo.specs] in
  let self := {| device_info_sources := []; gh_token := None |} in
  default [] (Some []) = @nil record
  /\ __init__ (H := Demo.collaborators) (Some []) None w
     = (Ok self, World [] (stdout w) (heap w))
  /\ (json_reader_get_device_info (Collaborators := Demo.collaborators)
        "id" "d1" = Ok (Some 1%positive)
      /\ heap w !! 1%positive = Some Demo.d1
      /\ py_truthy (VDict Demo.d1) = true
      /\ get_device_info (H := Demo.collaborators) self "id" "d1" w
         = (Ok (Some 1%positive), w)).
Proof.
  intros w self. split; [reflexivity|].
  destruct (no_sources_is_passthrough (H := Demo.collaborators)
              (Some []) None w eq_refl) as [Hinit Hget].
  split; [exact Hinit|].
  split; [reflexivity|]. split; [reflexivity|]. split; [reflexivity|].
  exact (Hget "id" "d1" w 1%positive Demo.d1 eq_refl eq_refl eq_refl).
Defined.

(** An exception of the catalog reader is not caught: each method of the
    facade raises it as it is and changes nothing; and
    [get_all_json_files] gives whatever the catalog reader gives. *)
Theorem catalog_errors_propagate `{Collaborators}
    (self : DeviceInfoReader) (w : world) (e : exn) :
  (forall id_field id_value,
      json_reader_get_device_info id_field id_value = Raise e ->
      get_device_info self id_field id_value w = (Raise e, w))
  /\ (json_reader_get_all_devices = Raise e ->
      get_all_devices self w = (Raise e, w))
  /\ get_all_json_files self w = (json_reader_get_all_json_files, w).
Proof.
  split; [|split].
  - intros id_field id_value Hreader.
    by rewrite get_device_info_run, Hreader.
  - intros Hreader. unfold get_all_devices. run. by rewrite Hreader.
  - done.
Qed.

Lemma catalog_errors_propagate_witness :
  let self := {| device_info_sources := [Demo.specs]; gh_token := None |} in
  let w := Demo.loaded [Demo.specs] in
  (json_reader_get_device_info (Collaborators := Demo.offline) "id" "d1"
     = Raise Demo.unreadable
   /\ get_device_info (H := Demo.offline) self "id" "d1" w
      = (Raise Demo.unreadable, w))
  /\ (json_reader_get_all_devices (Collaborators := Demo.offline)
        = Raise Demo.unreadable
      /\ get_all_devices (H := Demo.offline) self w
         = (Raise Demo.unreadable, w))
  /\ get_all_json_files (H := Demo.offline) self w
     = (Raise Demo.unreadable, w).
Proof.
  intros self w.
  destruct (catalog_errors_propagate (H := Demo.offline) self w
              Demo.unreadable) as (Hone & Hall & Hfiles).
  split; [split; [reflexivity | exact (Hone "id" "d1" eq_refl)]|].
  split; [split; [reflexivity | exact (Hall eq_refl)]|].
  exact Hfiles.
Defined.

(** ** Merge: what it keeps, and how it fails *)

Lemma merged_record_keeps_fields (c sources : cache)
    (ota cur merged : record) :
  merged_record c ota cur sources = Ok merged ->
  (forall key, is_Some (cur !! key) -> is_Some (merged !! key))
  /\ (forall key,
        (forall source_name cached_source k,
            (source_name, cached_source) ∈ sources ->
            key <> py_str source_name +:+ "_" +:+ k) ->
        merged !! key = cur !! key).
Proof.
  revert cur. induction sources as [|[source_name cached_source] rest IH];
    intros cur; simpl.
  - by intros [= <-].
  - destruct (find_match c ota cur source_name cached_source)
      as [match_|e]; simpl; [|done].
    intros Hmerged. destruct (IH _ Hmerged) as [Hkeep Hsame]. split.
    + intros key Hkey. apply Hkeep.
      destruct match_ as [m|]; simpl; [|done].
      apply lookup_union_is_Some. by right.
    + intros key Hkey. rewrite Hsame.
      * destruct match_ as [m|]; simpl; [|done].
        pose proof (prefixed_key_inj source_name) as Hinj.
        apply lookup_union_r.
        apply (lookup_kmap_None (prefixed_key source_name)).
        intros k ->. destruct (Hkey source_name cached_source k);
          [apply list_elem_of_here | done].
      * intros n e k Hin. apply (Hkey n e k). by apply elem_of_cons; right.
Qed.

(** A merge never drops a field: every key of the primary record is a key
    of the merged record; and a key that is not of the form
    [<source_name>_<field>] for a cached source has in the merged record the
    value it has in the primary record (or is in neither). *)
Theorem merge_keeps_primary_fields
    (self : DeviceInfoReader) (ota_data merged : loc) (w w' : world)
    (ota d : record) :
  heap w !! ota_data = Some ota ->
  _merge_sources_into_device self ota_data w = (Ok merged, w') ->
  heap w' !! merged = Some d ->
  (forall key, is_Some (ota !! key) -> is_Some (d !! key))
  /\ (forall key,
        (forall source_name cached_source k,
            (source_name, cached_source) ∈ sources_cache w ->
            key <> py_str source_name +:+ "_" +:+ k) ->
        d !! key = ota !! key).
Proof.
  intros Hota Hrun Hd.
  destruct (merge_run self ota_data w ota Hota)
    as (_ & out & d' & Hrun' & Hout).
  rewrite Hrun in Hrun'. injection Hrun' as <- ->.
  destruct (merged_record _ _ _ _) as [d''|e] eqn:Hmerged; [|done].
  destruct Hout as [[= ->] ->]. simpl in Hd.
  rewrite lookup_insert_eq in Hd. injection Hd as <-.
  by apply (merged_record_keeps_fields _ _ _ _ _ Hmerged).
Qed.

Lemma merge_keeps_primary_fields_witness :
  let w := Demo.loaded [Demo.specs; Demo.vendors] in
  let self := {| device_info_sources := [Demo.specs; Demo.vendors];
                 gh_token := None |} in
  let run1 := _merge_sources_into_device self 1%positive w in
  (heap w !! 1%positive = Some Demo.d1
   /\ run1.1 = Ok 4%positive
   /\ heap run1.2 !! 4%positive = Some Demo.d1_specs_vendors)
  /\ (forall key, is_Some (Demo.d1 !! key) ->
                  is_Some (Demo.d1_specs_vendors !! key))
  /\ (forall key,
        (forall source_name cached_source k,
            (source_name, cached_source) ∈ sources_cache w ->
            key <> py_str source_name +:+ "_" +:+ k) ->
        Demo.d1_specs_vendors !! key = Demo.d1 !! key).
Proof.
  intros w self run1. split; [repeat split; reflexivity|].
  exact (merge_keeps_primary_fields self 1%positive 4%positive w run1.2
           Demo.d1 Demo.d1_specs_vendors eq_refl eq_refl eq_refl).
Defined.

Lemma py_get_raises (d : record) (k : value) (e : exn) :
  py_get d k = Raise e -> e = TypeError "unhashable type".
Proof. destruct k; simpl; congruence. Qed.

Lemma scan_items_raises (items : list value) (lookup_field lookup_value : value)
    (e : exn) :
  scan_items items lookup_field lookup_value = Raise e ->
  e = TypeError "unhashable type".
Proof.
  induction items as [|item items IH]; simpl; [done|].
  destruct item as [| | | | |d]; try done.
  destruct (py_get d lookup_field) as [v|e'] eqn:Hget; simpl.
  - by destruct (py_eq v lookup_value).
  - intros [= <-]. by eapply py_get_raises.
Qed.

Lemma find_match_raises (c : cache) (ota cur : record) (source_name : hkey)
    (cached_source : source_entry) (e : exn) :
  find_match c ota cur source_name cached_source = Raise e ->
  e = TypeError "unhashable type".
Proof.
  unfold find_match.
  destruct (negb (py_truthy (dict_get (config cached_source) "lookup_field")));
    [done|].
  assert (forall r : result value,
            (forall e', r = Raise e' -> e' = TypeError "unhashable type") ->
            (lookup_value <- r ;;
             if py_truthy lookup_value then
               match_ <- _lookup_in_source c source_name
                           (dict_get (config cached_source) "lookup_field")
                           lookup_value ;;
               match match_ with
               | Some m => if py_truthy (VDict m) then Ok (Some m) else Ok None
               | None => Ok None
               end
             else Ok None) = Raise e ->
            e = TypeError "unhashable type") as Hrest.
  { intros [v|e'] Hr; simpl; [|intros [= <-]; by apply Hr].
    destruct (py_truthy v); [|done].
    destruct (_lookup_in_source _ _ _ _) as [[m|]|e'] eqn:Hlookup; simpl.
    - by destruct (negb _).
    - done.
    - intros [= <-]. unfold _lookup_in_source in Hlookup.
      destruct (cache_get c source_name) as [entry|]; [|done].
      destruct (data entry) as [| | | |items|d]; try done.
      + by eapply scan_items_raises.
      + destruct (py_get d _) as [x|e''] eqn:Hget; simpl in Hlookup.
        * by destruct (py_eq x v).
        * injection Hlookup as <-. by eapply py_get_raises. }
  destruct (py_truthy (dict_get (config cached_source) "match_from")) eqn:Hmf.
  - apply Hrest. unfold dict_getitem, dict_get in *.
    destruct (config cached_source !! "match_from") as [mf|]; simpl; [|done].
    intros e'. apply py_get_raises.
  - apply Hrest. intros e'. apply py_get_raises.
Qed.

Lemma merged_record_raises (c sources : cache) (ota cur : record) (e : exn) :
  merged_record c ota cur sources = Raise e -> e = TypeError "unhashable type".
Proof.
  revert cur. induction sources as [|[source_name cached_source] rest IH];
    intros cur; simpl; [done|].
  destruct (find_match c ota cur source_name cached_source)
    as [match_|e'] eqn:Hfind; simpl; [apply IH|].
  intros [= <-]. by eapply find_match_raises.
Qed.

Lemma merged_record_unhashable (c sources : cache) (ota cur : record)
    (source_name : hkey) (cached_source : source_entry) :
  (source_name, cached_source) ∈ sources ->
  py_truthy (dict_get (config cached_source) "lookup_field") = true ->
  to_hkey (dict_get (config cached_source) "lookup_field") = None ->
  py_truthy (dict_get (config cached_source) "match_from") = false ->
  merged_record c ota cur sources = Raise (TypeError "unhashable type").
Proof.
  intros Hin Hlf Hkey Hmf. revert cur.
  induction sources as [|[n e] rest IH]; intros cur;
    [by apply elem_of_nil in Hin|].
  simpl. destruct (find_match c ota cur n e) as [match_|ex] eqn:Hfind; simpl.
  - apply elem_of_cons in Hin as [[= <- <-]|Hin]; [|by apply IH].
    unfold find_match in Hfind. rewrite Hlf, Hmf in Hfind. simpl in Hfind.
    by destruct (dict_get (config cached_source) "lookup_field").
  - by rewrite (find_match_raises _ _ _ _ _ _ Hfind).
Qed.

(** A merge of an existing record can fail in one way only: with the
    [TypeError] of an unhashable key, when a [lookup_field] or a
    [match_from] of a configuration is a list or a mapping.  It does fail
    whenever a cached source has a truthy unhashable [lookup_field] and no
    [match_from]: such a descriptor makes every merge raise. *)
Theorem merge_fails_only_with_type_error
    (self : DeviceInfoReader) (ota_data : loc) (w : world) (ota : record) :
  heap w !! ota_data = Some ota ->
  (forall e w',
      _merge_sources_into_device self ota_data w = (Raise e, w') ->
      e = TypeError "unhashable type")
  /\ (forall source_name cached_source,
        (source_name, cached_source) ∈ sources_cache w ->
        py_truthy (dict_get (config cached_source) "lookup_field") = true ->
        to_hkey (dict_get (config cached_source) "lookup_field") = None ->
        py_truthy (dict_get (config cached_source) "match_from") = false ->
        (_merge_sources_into_device self ota_data w).1
          = Raise (TypeError "unhashable type")).
Proof.
  intros Hota.
  destruct (merge_run self ota_data w ota Hota)
    as (_ & out & d & Hrun & Hout).
  split.
  - intros e w' Hraise. rewrite Hrun in Hraise. injection Hraise as -> _.
    destruct (merged_record _ _ _ _) as [merged|e'] eqn:Hmerged.
    + by destruct Hout.
    + injection Hout as <-. by eapply merged_record_raises.
  - intros source_name cached_source Hin Hlf Hkey Hmf.
    rewrite Hrun. simpl.
    by rewrite (merged_record_unhashable _ _ _ _ _ _ Hin Hlf Hkey Hmf) in Hout.
Qed.

Lemma merge_fails_only_with_type_error_witness :
  let source := <["lookup_field" := VList [VStr "model"]]> Demo.specs in
  let w := Demo.loaded [source] in
  let self := {| device_info_sources := [source]; gh_token := None |} in
  let entry := SourceEntry
                 (VList [VDict (Demo.rec_ [("model", VStr "X1");
                                           ("ram", VStr "8GB")])]) source in
  (heap w !! 1%positive = Some Demo.d1
   /\ (KStr "specs", entry) ∈ sources_cache w
   /\ py_truthy (dict_get (config entry) "lookup_field") = true
   /\ to_hkey (dict_get (config entry) "lookup_field") = None
   /\ py_truthy (dict_get (config entry) "match_from") = false)
  /\ (_merge_sources_into_device self 1%positive w).1
     = Raise (TypeError "unhashable type").
Proof.
  intros source w self entry.
  assert ((KStr "specs", entry) ∈ sources_cache w) as Hin.
  { vm_compute. apply list_elem_of_here. }
  split; [split; [reflexivity|]; split; [exact Hin|]; repeat split; reflexivity|].
  exact (proj2 (merge_fails_only_with_type_error self 1%positive w Demo.d1
                  eq_refl)
           (KStr "specs") entry Hin eq_refl eq_refl eq_refl).
Defined.

(** ** Lookup and merge together *)

Lemma scan_items_finds (items : list value) (lookup_field : string)
    (lookup_value : value) (i : nat) (m : record) :
  items !! i = Some (VDict m) ->
  item_matches lookup_field lookup_value (VDict m) = true ->
  (forall j x, (j < i)%nat -> items !! j = Some x ->
               item_matches lookup_field lookup_value x = false) ->
  scan_items items (VStr lookup_field) lookup_value = Ok (Some m).
Proof.
  intros Hi Hm Hbefore.
  destruct (scan_items_first items lookup_field lookup_value)
    as ([found|] & -> & Hfound).
  - destruct Hfound as (i' & Hi' & Hm' & Hbefore').
    destruct (lt_eq_lt_dec i i') as [[Hlt| ->]|Hlt].
    + rewrite (Hbefore' _ _ Hlt Hi) in Hm. done.
    + congruence.
    + rewrite (Hbefore _ _ Hlt Hi') in Hm'. done.
  - rewrite Hfound in Hm; [done|]. by eapply list_elem_of_lookup_2.
Qed.

(** One source, from lookup to merged record.  With a single cached source
    that has a field name as [lookup_field] and no [match_from], a primary
    record whose field of that name is truthy gets, from the first item of
    the source that is a record with an equal field, all the fields of that
    item under prefixed keys, over its own fields. *)
Theorem single_source_merge
    (self : DeviceInfoReader) (ota_data : loc) (w : world) (ota : record)
    (source_name : hkey) (cached_source : source_entry)
    (items : list value) (lookup_field : string) (i : nat) (m : record) :
  heap w !! ota_data = Some ota ->
  sources_cache w = [(source_name, cached_source)] ->
  data cached_source = VList items ->
  dict_get (config cached_source) "lookup_field" = VStr lookup_field ->
  lookup_field <> "" ->
  py_truthy (dict_get (config cached_source) "match_from") = false ->
  py_truthy (dict_get ota lookup_field) = true ->
  items !! i = Some (VDict m) ->
  py_eq (dict_get m lookup_field) (dict_get ota lookup_field) = true ->
  (forall j x, (j < i)%nat -> items !! j = Some x ->
               item_matches lookup_field (dict_get ota lookup_field) x = false) ->
  exists merged,
    _merge_sources_into_device self ota_data w
      = (Ok merged,
         World (sources_cache w) (stdout w)
               (<[merged := prefixed_match source_name m ∪ ota]> (heap w)))
    /\ heap w !! merged = None.
Proof.
  intros Hota Hcache Hdata Hlf Hne Hmf Hv Hi Hm Hbefore.
  destruct (merge_run self ota_data w ota Hota)
    as (Hfresh & out & d & Hrun & Hout).
  assert (find_match [(source_name, cached_source)] ota ota
            source_name cached_source = Ok (Some m)) as Hfind.
  { unfold find_match. rewrite Hlf, Hmf. simpl.
    rewrite bool_decide_eq_false_2 by done. simpl. rewrite Hv.
    unfold _lookup_in_source. simpl.
    rewrite hkey_eqb_refl, Hdata.
    rewrite (scan_items_finds items lookup_field _ i m Hi Hm Hbefore). simpl.
    destruct (decide (size m = 0%nat)) as [Hempty|Hsize].
    - apply map_size_empty_iff in Hempty. subst m.
      unfold dict_get in Hm at 1. rewrite lookup_empty in Hm. simpl in Hm.
      by destruct (dict_get ota lookup_field).
    - by rewrite bool_decide_eq_false_2. }
  rewrite Hcache in Hout. simpl in Hout. rewrite Hfind in Hout.
  destruct Hout as [-> ->]. by eexists.
Qed.

Lemma single_source_merge_witness :
  let w := Demo.loaded [Demo.dups] in
  let self := {| device_info_sources := [Demo.dups]; gh_token := None |} in
  let m := Demo.rec_ [("model", VStr "X1"); ("ram", VStr "8GB")] in
  (heap w !! 1%positive = Some Demo.d1 /\ length (sources_cache w) = 1%nat)
  /\ exists merged,
       _merge_sources_into_device self 1%positive w
         = (Ok merged,
            World (sources_cache w) (stdout w)
                  (<[merged := prefixed_match (KStr "specs") m ∪ Demo.d1]>
                     (heap w)))
       /\ heap w !! merged = None.
Proof.
  intros w self m. split; [split; reflexivity|].
  apply (single_source_merge self 1%positive w Demo.d1 (KStr "specs")
           (SourceEntry
              (VList [VStr "note";
                      VDict (Demo.rec_ [("model", VStr "X0");
                                        ("ram", VStr "4GB")]);
                      VDict m;
                      VDict (Demo.rec_ [("model", VStr "X1");
                                        ("ram", VStr "16GB")])]) Demo.dups)
           [VStr "note";
            VDict (Demo.rec_ [("model", VStr "X0"); ("ram", VStr "4GB")]);
            VDict m;
            VDict (Demo.rec_ [("model", VStr "X1"); ("ram", VStr "16GB")])]
           "model" 2 m); try reflexivity.
  - discriminate.
  - intros [|[|j]] x Hlt Hx; [by injection Hx as <-..|lia].
Defined.
